(** * gprofiler/gprofiler_types.py: stack annotation and argument validators

    A shallow embedding of [gprofiler_types.py] and of the parts of the
    Python runtime it calls ([str.split], [int], [repr], [re.match],
    insertion-ordered dictionaries, exceptions), followed by the
    properties of [ProfilingErrorStack] and of the command-line value
    validators. *)

From Stdlib Require Import ZArith Ascii String DecimalString DecimalPos Lia.
From stdpp Require Import base option list gmap strings.

Local Open Scope string_scope.
Local Open Scope list_scope.

(** ** Exceptions *)

(** The exceptions the module can raise.  [ArgumentTypeError] is
    [configargparse.ArgumentTypeError] and carries its message.
    [InvalidRef] is not a Python exception: it marks a dereference of an
    object identifier that the heap does not hold, which no Python program
    can perform. *)
Inductive exn : Type :=
  | ValueError
  | StopIteration
  | AssertionError
  | RuntimeError
  | ArgumentTypeError (msg : string)
  | InvalidRef.

Inductive result (A : Type) : Type :=
  | Ok (a : A)
  | Raise (e : exn).
Arguments Ok {A} a.
Arguments Raise {A} e.

#[global] Instance result_ret : MRet result := fun _ a => Ok a.
#[global] Instance result_bind : MBind result := fun _ _ k m =>
  match m with
  | Ok a => k a
  | Raise e => Raise e
  end.

(** ** Python strings *)

Module Py.

Definition newline : ascii := ascii_of_nat 10.
Definition squote : ascii := ascii_of_nat 39.
Definition dquote : ascii := ascii_of_nat 34.
Definition backslash : ascii := ascii_of_nat 92.

(** [maxsplit] of [str.split]: [None] is the default (no limit). *)
Definition may_split (maxsplit : option nat) : bool :=
  match maxsplit with
  | None => true
  | Some 0 => false
  | Some (S _) => true
  end.

Definition after_split (maxsplit : option nat) : option nat :=
  match maxsplit with
  | None => None
  | Some n => Some (Nat.pred n)
  end.

(** [s.split(sep, maxsplit)] for a one-character separator, the only
    kind the module uses.  The result is never empty:
    [split sep _ ""] is [[""]]. *)
Fixpoint split (sep : ascii) (maxsplit : option nat) (s : string) : list string :=
  match s with
  | EmptyString => [EmptyString]
  | String c s' =>
      if Ascii.eqb c sep && may_split maxsplit then
        EmptyString :: split sep (after_split maxsplit) s'
      else
        match split sep maxsplit s' with
        | piece :: pieces => String c piece :: pieces
        | [] => [String c EmptyString]
        end
  end.

(** [a, b = l]: unpacking into two targets. *)
Definition unpack2 {A} (l : list A) : result (A * A) :=
  match l with
  | [a; b] => Ok (a, b)
  | _ => Raise ValueError
  end.

(** [c in s] for a character. *)
Fixpoint has_char (c : ascii) (s : string) : bool :=
  match s with
  | EmptyString => false
  | String d s' => Ascii.eqb d c || has_char c s'
  end.

(** [sub in s] for strings. *)
Fixpoint contains (sub s : string) : bool :=
  String.prefix sub s ||
  match s with
  | EmptyString => false
  | String _ s' => contains sub s'
  end.

(** *** [int(text)] in base 10 *)

(** The characters [int] skips around the number: the ASCII white space
    and, with characters read as the code points 0..255, the next-line
    and no-break space characters. *)
Definition is_space (c : ascii) : bool :=
  let n := nat_of_ascii c in
  (Nat.leb 9 n && Nat.leb n 13) || Nat.eqb n 32 || Nat.eqb n 133 || Nat.eqb n 160.

Definition digit_of (c : ascii) : option Z :=
  let n := nat_of_ascii c in
  if Nat.leb 48 n && Nat.leb n 57 then Some (Z.of_nat (n - 48)) else None.

Fixpoint lstrip (s : string) : string :=
  match s with
  | EmptyString => EmptyString
  | String c s' => if is_space c then lstrip s' else s
  end.

Fixpoint rstrip (s : string) : string :=
  match s with
  | EmptyString => EmptyString
  | String c s' =>
      match rstrip s' with
      | EmptyString => if is_space c then EmptyString else String c EmptyString
      | r => String c r
      end
  end.

(** Digits with single underscores between them; [after_digit] tells
    whether the previous character was a digit. *)
Fixpoint digits (acc : Z) (after_digit : bool) (s : string) : option Z :=
  match s with
  | EmptyString => if after_digit then Some acc else None
  | String c s' =>
      match digit_of c with
      | Some d => digits (10 * acc + d) true s'
      | None =>
          if Ascii.eqb c "_" && after_digit then digits acc false s' else None
      end
  end.

(** [int(text)]: surrounding whitespace, an optional sign, digits.
    [None] stands for [ValueError].  (The interpreter's configurable
    limit on the number of digits is not modelled.) *)
Definition int (text : string) : option Z :=
  match rstrip (lstrip text) with
  | String "-" s => Z.opp <$> digits 0 false s
  | String "+" s => digits 0 false s
  | s => digits 0 false s
  end.

Definition int_or_raise (text : string) : result Z :=
  match int text with
  | Some v => Ok v
  | None => Raise ValueError
  end.

(** *** [repr] *)

(** [repr(n)] for an integer. *)
Definition repr_int (n : Z) : string :=
  NilZero.string_of_int (Z.to_int n).

Definition hex_digit (n : nat) : ascii :=
  if Nat.ltb n 10 then ascii_of_nat (48 + n) else ascii_of_nat (87 + n).

(** Characters are read as the code points 0..255. *)
Definition printable (c : ascii) : bool :=
  let n := nat_of_ascii c in
  (Nat.leb 32 n && Nat.ltb n 127) || (Nat.leb 161 n && negb (Nat.eqb n 173)).

Definition repr_char (quote c : ascii) : string :=
  if Ascii.eqb c quote || Ascii.eqb c backslash then String backslash (String c EmptyString)
  else if Ascii.eqb c (ascii_of_nat 9) then String backslash "t"
  else if Ascii.eqb c newline then String backslash "n"
  else if Ascii.eqb c (ascii_of_nat 13) then String backslash "r"
  else if printable c then String c EmptyString
  else
    let n := nat_of_ascii c in
    String backslash
      (String "x" (String (hex_digit (n / 16)) (String (hex_digit (n mod 16)) EmptyString))).

Fixpoint repr_body (quote : ascii) (s : string) : string :=
  match s with
  | EmptyString => EmptyString
  | String c s' => repr_char quote c +:+ repr_body quote s'
  end.

(** [repr(s)] for a string: single quotes, unless the string holds a
    single quote and no double quote. *)
Definition repr_str (s : string) : string :=
  let quote := if has_char squote s && negb (has_char dquote s) then dquote else squote in
  String quote (repr_body quote s +:+ String quote EmptyString).

Fixpoint join (sep : string) (l : list string) : string :=
  match l with
  | [] => EmptyString
  | [x] => x
  | x :: l' => x +:+ sep +:+ join sep l'
  end.

(** [repr(l)] for a list of strings. *)
Definition repr_list (l : list string) : string :=
  "[" +:+ join ", " (repr_str <$> l) +:+ "]".

End Py.

(** ** Regular expressions ([re]) *)

Module Re.

(** The constructs [PROFILING_ERROR_STACK_PATTERN] is built from.
    [Dot] is [.] without [re.DOTALL]: any character but a newline. *)
Inductive regex : Type :=
  | Void
  | Eps
  | Chr (c : ascii)
  | Dot
  | Cat (r1 r2 : regex)
  | Alt (r1 r2 : regex)
  | Star (r : regex).

(** [r+] *)
Definition Plus (r : regex) : regex := Cat r (Star r).

(** A literal run of characters. *)
Fixpoint Lit (s : string) : regex :=
  match s with
  | EmptyString => Eps
  | String c s' => Cat (Chr c) (Lit s')
  end.

(** The strings a pattern matches in full. *)
Inductive matches : regex -> string -> Prop :=
  | m_eps : matches Eps EmptyString
  | m_chr c : matches (Chr c) (String c EmptyString)
  | m_dot c : c <> Py.newline -> matches Dot (String c EmptyString)
  | m_cat r1 r2 s1 s2 :
      matches r1 s1 -> matches r2 s2 -> matches (Cat r1 r2) (s1 +:+ s2)
  | m_alt_l r1 r2 s : matches r1 s -> matches (Alt r1 r2) s
  | m_alt_r r1 r2 s : matches r2 s -> matches (Alt r1 r2) s
  | m_star_nil r : matches (Star r) EmptyString
  | m_star_cons r s1 s2 :
      matches r s1 -> matches (Star r) s2 -> matches (Star r) (s1 +:+ s2).

Fixpoint nullable (r : regex) : bool :=
  match r with
  | Void => false
  | Eps => true
  | Chr _ => false
  | Dot => false
  | Cat r1 r2 => nullable r1 && nullable r2
  | Alt r1 r2 => nullable r1 || nullable r2
  | Star _ => true
  end.

(** The pattern for what may follow a first character [c]. *)
Fixpoint deriv (c : ascii) (r : regex) : regex :=
  match r with
  | Void => Void
  | Eps => Void
  | Chr d => if Ascii.eqb c d then Eps else Void
  | Dot => if Ascii.eqb c Py.newline then Void else Eps
  | Cat r1 r2 =>
      if nullable r1 then Alt (Cat (deriv c r1) r2) (deriv c r2)
      else Cat (deriv c r1) r2
  | Alt r1 r2 => Alt (deriv c r1) (deriv c r2)
  | Star r1 => Cat (deriv c r1) (Star r1)
  end.

(** [pattern.fullmatch(s) is not None] *)
Fixpoint fullmatch (r : regex) (s : string) : bool :=
  match s with
  | EmptyString => nullable r
  | String c s' => fullmatch (deriv c r) s'
  end.

(** [pattern.match(s) is not None]: the pattern matches at the start
    of [s]; what follows the match is free. *)
Fixpoint match_ (r : regex) (s : string) : bool :=
  nullable r ||
  match s with
  | EmptyString => false
  | String c s' => match_ (deriv c r) s'
  end.

End Re.

(** ** Dictionaries and [collections.Counter] *)

(** A dictionary in insertion order: the keys are pairwise distinct
    ([Dict.wf]).  [StackToSampleCount] is [Counter], a [dict] subclass
    from stack keys to sample counts. *)
Abbreviation StackToSampleCount := (list (string * Z)).

Module Dict.

Definition keys (d : StackToSampleCount) : list string := fst <$> d.
Definition values (d : StackToSampleCount) : list Z := snd <$> d.

Definition wf (d : StackToSampleCount) : Prop := NoDup (keys d).

(** [len(d)] *)
Definition len (d : StackToSampleCount) : nat := length d.

(** [next(iter(d))]: the first key. *)
Definition next_iter (d : StackToSampleCount) : result string :=
  match d with
  | [] => Raise StopIteration
  | (k, _) :: _ => Ok k
  end.

(** [d.get(k)] *)
Fixpoint get (k : string) (d : StackToSampleCount) : option Z :=
  match d with
  | [] => None
  | (k', v) :: d' => if String.eqb k' k then Some v else get k d'
  end.

(** [d[k] = v]: a present key keeps its place, a new key goes last. *)
Fixpoint setitem (k : string) (v : Z) (d : StackToSampleCount) : StackToSampleCount :=
  match d with
  | [] => [(k, v)]
  | (k', v') :: d' =>
      if String.eqb k' k then (k, v) :: d' else (k', v') :: setitem k v d'
  end.

(** [Counter.update(mapping)]: the counts of [mapping] are added to
    the ones held. *)
Definition update (self mapping : StackToSampleCount) : StackToSampleCount :=
  foldl (fun acc '(elem, count) => setitem elem (count + default 0%Z (get elem acc))%Z acc)
        self mapping.

(** [sum(d.values())] *)
Definition total (d : StackToSampleCount) : Z := foldr Z.add 0%Z (values d).

End Dict.

(** ** [ProfilingErrorStack] *)

Module ProfilingErrorStack.

(** [re.compile(r".*;\[Profiling .+: .+\]")] *)
Definition PROFILING_ERROR_STACK_PATTERN : Re.regex :=
  Re.Cat (Re.Star Re.Dot)
    (Re.Cat (Re.Lit ";[Profiling ")
       (Re.Cat (Re.Plus Re.Dot)
          (Re.Cat (Re.Lit ": ")
             (Re.Cat (Re.Plus Re.Dot) (Re.Lit "]"))))).

(** [len(stack) == 1 and PATTERN.match(next(iter(stack))) is not None];
    [next] cannot raise behind the length test. *)
Definition is_error_stack (stack : StackToSampleCount) : bool :=
  Nat.eqb (Dict.len stack) 1 &&
  match Dict.next_iter stack with
  | Ok key => Re.match_ PROFILING_ERROR_STACK_PATTERN key
  | Raise _ => false
  end.

(** f"{comm};[Profiling {what}: {reason}]" *)
Definition error_key (what reason comm : string) : string :=
  comm +:+ ";[Profiling " +:+ what +:+ ": " +:+ reason +:+ "]".

(** [ProfilingErrorStack(what, reason, comm)] *)
Definition __init__ (what reason comm : string) : result StackToSampleCount :=
  let self := Dict.update [] [(error_key what reason comm, 1%Z)] in
  if is_error_stack self then Ok self else Raise AssertionError.

(** f"{comm};{error_frame};{stack}" *)
Definition annotated (comm error_frame stack : string) : string :=
  comm +:+ ";" +:+ error_frame +:+ ";" +:+ stack.

(** A stack key with a [;]: a command name followed by a stack. *)
Definition has_stack (frame : string) : Prop := Py.has_char ";" frame = true.

(** The key under which the loop files the count of [frame]. *)
Definition annotate_key (error_frame frame : string) : string :=
  match Py.split ";" (Some 1) frame with
  | [comm; stack] => annotated comm error_frame stack
  | _ => frame
  end.

(** The body of the [for] loop: one item of [source_stacks]. *)
Definition attach_step (error_frame : string) (dest_stacks : StackToSampleCount)
    (item : string * Z) : result StackToSampleCount :=
  let '(frame, count) := item in
  '(comm, stack) ← Py.unpack2 (Py.split ";" (Some 1) frame);
  Ok (Dict.setitem (annotated comm error_frame stack) count dest_stacks).

(** [for item in items: dest = body(dest, item)], stopping at the first
    exception. *)
Fixpoint for_items (body : StackToSampleCount -> string * Z -> result StackToSampleCount)
    (dest : StackToSampleCount) (items : list (string * Z)) : result StackToSampleCount :=
  match items with
  | [] => Ok dest
  | item :: items' => dest' ← body dest item; for_items body dest' items'
  end.

Definition attach_error_to_stacks (source_stacks error_stack : StackToSampleCount)
    : result StackToSampleCount :=
  key ← Dict.next_iter error_stack;
  '(_, error_frame) ← Py.unpack2 (Py.split ";" (Some 1) key);
  for_items (attach_step error_frame) [] source_stacks.

End ProfilingErrorStack.

(** ** The same operation on the object heap

    Python passes the two counters by reference, and they may be one
    object.  Here objects live in a heap; an operation takes the heap and
    returns its outcome with the heap it leaves, also when it raises. *)

Module Heap.

Abbreviation loc := nat.
Definition M (A : Type) : Type :=
  gmap nat StackToSampleCount -> result A * gmap nat StackToSampleCount.

#[global] Instance M_ret : MRet M := fun _ a h => (Ok a, h).
#[global] Instance M_bind : MBind M := fun _ _ k m h =>
  match m h with
  | (Ok a, h') => k a h'
  | (Raise e, h') => (Raise e, h')
  end.

Definition lift {A} (r : result A) : M A := fun h => (r, h).

(** A new object, at an identifier the heap does not use. *)
Definition alloc (d : StackToSampleCount) : M loc := fun h =>
  let l := fresh (dom h) in (Ok l, <[l := d]> h).

Definition load (l : loc) : M StackToSampleCount := fun h =>
  match h !! l with
  | Some d => (Ok d, h)
  | None => (Raise InvalidRef, h)
  end.

Definition store (l : loc) (d : StackToSampleCount) : M unit := fun h =>
  (Ok tt, <[l := d]> h).

(** [obj[k] = v] *)
Definition setitem (l : loc) (k : string) (v : Z) : M unit :=
  d ← load l; store l (Dict.setitem k v d).

(** A dictionary iterator: the dictionary, its size when the iterator
    was made, and the position reached. *)
Record dictiter : Type := { di_dict : loc; di_used : nat; di_pos : nat }.

(** [iter(obj.items())] *)
Definition iter_items (l : loc) : M dictiter :=
  d ← load l; mret {| di_dict := l; di_used := length d; di_pos := 0 |}.

(** [next(it)]: [None] is the end of the iteration; a dictionary whose
    size changed since [iter] raises [RuntimeError]. *)
Definition iter_next (it : dictiter) : M (option (string * Z)) :=
  d ← load (di_dict it);
  if Nat.eqb (length d) (di_used it) then mret (d !! di_pos it)
  else lift (Raise RuntimeError).

Definition advance (it : dictiter) : dictiter :=
  {| di_dict := di_dict it; di_used := di_used it; di_pos := S (di_pos it) |}.

(** [for item in it: body(item)].  An iterator made over [n] entries
    yields at most [n] items: [remaining] counts the ones left, and
    the call of [next] after the last one stops the loop or raises. *)
Fixpoint for_items (remaining : nat) (it : dictiter) (body : string * Z -> M unit)
    : M unit :=
  item ← iter_next it;
  match item, remaining with
  | Some x, S n => _ ← body x; for_items n (advance it) body
  | _, _ => mret tt
  end.

(** The body of the [for] loop of [attach_error_to_stacks]. *)
Definition attach_step (error_frame : string) (dest_stacks : loc)
    (item : string * Z) : M unit :=
  let '(frame, count) := item in
  '(comm, stack) ← lift (Py.unpack2 (Py.split ";" (Some 1) frame));
  setitem dest_stacks (ProfilingErrorStack.annotated comm error_frame stack) count.

Definition attach_error_to_stacks (source_stacks error_stack : loc) : M loc :=
  es ← load error_stack;
  key ← lift (Dict.next_iter es);
  '(_, error_frame) ← lift (Py.unpack2 (Py.split ";" (Some 1) key));
  dest_stacks ← alloc [];
  it ← iter_items source_stacks;
  _ ← for_items (di_used it) it (attach_step error_frame dest_stacks);
  mret dest_stacks.

End Heap.

(** ** Argument validators *)

Definition positive_integer (value_str : string) : result Z :=
  value ← Py.int_or_raise value_str;
  if (value <=? 0)%Z then
    Raise (ArgumentTypeError ("invalid positive integer value: " +:+ Py.repr_int value))
  else Ok value.

Definition nonnegative_integer (value_str : string) : result Z :=
  value ← Py.int_or_raise value_str;
  if (value <? 0)%Z then
    Raise (ArgumentTypeError ("invalid non-negative integer value: " +:+ Py.repr_int value))
  else Ok value.

Definition integers_list_message : string :=
  "Integer list should be a single integer, or comma separated list of integers f.e. 13,452,2388".

(** [try: ... except ValueError: raise ArgumentTypeError(...)] *)
Definition integers_list (value_str : string) : result (list Z) :=
  match mapM Py.int_or_raise (Py.split "," None value_str) with
  | Ok values => Ok values
  | Raise ValueError => Raise (ArgumentTypeError integers_list_message)
  | Raise e => Raise e
  end.

Definition integer_range (min_range max_range : Z) : string -> result Z :=
  fun value_str =>
    value ← Py.int_or_raise value_str;
    if (value <? min_range)%Z || (max_range <=? value)%Z then
      Raise (ArgumentTypeError
               ("invalid integer value " +:+ Py.repr_int value +:+ " (out of range "
                +:+ Py.repr_int min_range +:+ "-" +:+ Py.repr_int max_range +:+ ")"))
    else Ok value.

Definition enum_message (v : string) (options : list string) : string :=
  "invalid value " +:+ Py.repr_str v +:+ " (allowed values: " +:+ Py.repr_list options +:+ ")".

(** [for v in values: if v not in options: raise ...] *)
Fixpoint check_options (options values : list string) : result unit :=
  match values with
  | [] => Ok tt
  | v :: values' =>
      if bool_decide (v ∈ options) then check_options options values'
      else Raise (ArgumentTypeError (enum_message v options))
  end.

Definition comma_separated_enum_list (options : list string) (value : string)
    : result (list string) :=
  let values := Py.split "," None value in
  _ ← check_options options values;
  Ok values.

(** ** Sample data *)

Definition sample_stacks : StackToSampleCount :=
  [("python;main;foo", 5%Z); ("python;main;bar", 3%Z)].

Definition sample_error_stack : StackToSampleCount :=
  [("python;[Profiling cpu: permission denied]", 1%Z)].

(** A heap holding the two at the identifiers 0 and 1. *)
Definition sample_heap : gmap nat StackToSampleCount :=
  <[0 := sample_stacks]> (<[1 := sample_error_stack]> ∅).

(** A source with a key that holds no [;], and a heap holding it. *)
Definition sample_malformed_stacks : StackToSampleCount :=
  [("python;main;foo", 5%Z); ("swapper", 3%Z)].

Definition sample_malformed_heap : gmap nat StackToSampleCount :=
  <[0 := sample_malformed_stacks]> (<[1 := sample_error_stack]> ∅).

(** ** The interpreter's limit on decimal text *)

(** The default number of digits past which the interpreter refuses to
    convert an integer to or from decimal text
    ([sys.int_info.default_max_str_digits]).  [Py.int] and [Py.repr_int]
    do not model the limit; a property that needs the conversion to
    succeed is stated for integers within it. *)
Definition max_str_digits : Z := 4300.

(** [n] has at most [max_str_digits] decimal digits. *)
Definition within_digit_limit (n : Z) : Prop :=
  (Z.abs n < 10 ^ max_str_digits)%Z.

(** ** Counting *)

(** [s.count(c)] for a character. *)
Fixpoint str_count (c : ascii) (s : string) : nat :=
  match s with
  | EmptyString => 0
  | String d s' => (if Ascii.eqb d c then 1 else 0) + str_count c s'
  end.

(** ** Stating what the annotation does to an entry *)

(** [dest_item] is [source_item] under [error_frame]: the same count,
    and the key [comm;stack] (no [;] in [comm]) turned into
    [comm;error_frame;stack]. *)
Definition annotated_entry (error_frame : string)
    (source_item dest_item : string * Z) : Prop :=
  dest_item.2 = source_item.2 /\
  exists comm stack,
    source_item.1 = comm +:+ String ";" stack /\
    Py.has_char ";" comm = false /\
    dest_item.1 = comm +:+ ";" +:+ error_frame +:+ ";" +:+ stack.

(** * Properties *)

(** ** Strings and [split] *)

Section StringFacts.

Implicit Types (s : string) (c sep : ascii).

Lemma append_nil_l s : "" +:+ s = s.
Proof. reflexivity. Qed.

Lemma append_cons c s1 s2 : String c s1 +:+ s2 = String c (s1 +:+ s2).
Proof. reflexivity. Qed.

Lemma append_nil_r s : s +:+ "" = s.
Proof.
  induction s as [|c s IH]; [done |]. by rewrite append_cons, IH.
Qed.

Lemma append_assoc s1 s2 s3 : (s1 +:+ s2) +:+ s3 = s1 +:+ (s2 +:+ s3).
Proof.
  induction s1 as [|c s1 IH]; [done |]. by rewrite !append_cons, IH.
Qed.

Lemma has_char_app c s1 s2 :
  Py.has_char c (s1 +:+ s2) = Py.has_char c s1 || Py.has_char c s2.
Proof.
  induction s1 as [|d s1 IH]; [done |].
  rewrite append_cons. simpl. by rewrite IH, orb_assoc.
Qed.

Lemma has_char_cons_same c s : Py.has_char c (String c s) = true.
Proof. simpl. by rewrite Ascii.eqb_refl. Qed.

Lemma split_limit_reached sep s : Py.split sep (Some 0) s = [s].
Proof.
  induction s as [|c s IH]; simpl; [done |].
  by rewrite andb_false_r, IH.
Qed.

(** Without the separator there is one piece, whatever the limit. *)
Lemma split_absent sep maxsplit s :
  Py.has_char sep s = false -> Py.split sep maxsplit s = [s].
Proof.
  induction s as [|c s IH]; simpl; [done |].
  intros [Hc Hs]%orb_false_elim. rewrite Hc. simpl. by rewrite IH.
Qed.

(** With [maxsplit=1] and the separator present, the cut is at its
    first occurrence. *)
Lemma split_once_present sep s :
  Py.has_char sep s = true ->
  exists a b, Py.split sep (Some 1) s = [a; b] /\
              s = a +:+ String sep b /\ Py.has_char sep a = false.
Proof.
  induction s as [|c s IH]; simpl; [done |].
  destruct (Ascii.eqb_spec c sep) as [->|Hne]; simpl.
  - intros _. exists "", s. by rewrite split_limit_reached.
  - intros (a & b & -> & -> & Ha)%IH.
    exists (String c a), b. simpl. split_and!; [done | done |].
    apply orb_false_intro; [by apply Ascii.eqb_neq | done].
Qed.

Lemma split_once_cut sep a b :
  Py.has_char sep a = false ->
  Py.split sep (Some 1) (a +:+ String sep b) = [a; b].
Proof.
  induction a as [|c a IH]; rewrite ?append_cons, ?append_nil_l; simpl.
  - intros _. by rewrite Ascii.eqb_refl, split_limit_reached.
  - intros [Hc Ha]%orb_false_elim. rewrite Hc. simpl. by rewrite IH.
Qed.

Lemma unpack_split_once sep s :
  Py.has_char sep s = true ->
  exists a b, Py.unpack2 (Py.split sep (Some 1) s) = Ok (a, b) /\
              s = a +:+ String sep b /\ Py.has_char sep a = false.
Proof.
  intros (a & b & -> & Hs & Ha)%split_once_present. by exists a, b.
Qed.

Lemma unpack_split_once_absent sep s :
  Py.has_char sep s = false ->
  Py.unpack2 (Py.split sep (Some 1) s) = Raise ValueError.
Proof. intros H. by rewrite split_absent. Qed.

(** The first cut of a string is unique. *)
Lemma first_cut_unique sep a1 b1 a2 b2 :
  Py.has_char sep a1 = false -> Py.has_char sep a2 = false ->
  a1 +:+ String sep b1 = a2 +:+ String sep b2 -> a1 = a2 /\ b1 = b2.
Proof.
  intros H1 H2 Heq.
  pose proof (split_once_cut sep a1 b1 H1) as E1.
  pose proof (split_once_cut sep a2 b2 H2) as E2.
  rewrite Heq in E1. rewrite E1 in E2. by simplify_eq.
Qed.

Lemma split_nonempty sep maxsplit s : Py.split sep maxsplit s <> [].
Proof.
  revert maxsplit. induction s as [|c s IH]; intros m; simpl; [done |].
  destruct (_ && _); [done |].
  destruct (Py.split sep m s) eqn:E; done.
Qed.

(** [split] with no limit: no piece holds the separator, and joining
    the pieces with it gives the text back. *)
Lemma split_pieces sep s :
  Forall (fun piece => Py.has_char sep piece = false) (Py.split sep None s).
Proof.
  induction s as [|c s IH]; simpl; [by repeat constructor |].
  rewrite andb_true_r.
  destruct (Ascii.eqb_spec c sep) as [->|Hne].
  - by constructor.
  - pose proof (split_nonempty sep None s).
    destruct (Py.split sep None s) as [|p ps]; [done |].
    inversion IH; subst. constructor; [|done]. simpl.
    apply orb_false_intro; [by apply Ascii.eqb_neq | done].
Qed.

Lemma join_split sep s :
  Py.join (String sep "") (Py.split sep None s) = s.
Proof.
  induction s as [|c s IH]; simpl; [done |].
  rewrite andb_true_r.
  pose proof (split_nonempty sep None s).
  destruct (Ascii.eqb_spec c sep) as [->|Hne];
    destruct (Py.split sep None s) as [|p ps] eqn:E; try done.
  - simpl in *. by rewrite IH.
  - destruct ps; simpl in *; by rewrite <- IH.
Qed.

Lemma contains_prefix sub s : Py.contains sub (sub +:+ s) = true.
Proof.
  assert (String.prefix sub (sub +:+ s) = true) as H.
  { induction sub as [|c sub IH]; [by destruct s |].
    rewrite append_cons. simpl.
    destruct (ascii_dec c c); [done | congruence]. }
  destruct sub; [by destruct s |].
  rewrite append_cons in *. simpl in *. by rewrite H.
Qed.

Lemma contains_app sub s1 s2 : Py.contains sub (s1 +:+ sub +:+ s2) = true.
Proof.
  induction s1 as [|c s1 IH].
  - rewrite append_nil_l. apply contains_prefix.
  - rewrite append_cons. simpl. rewrite IH. by rewrite orb_true_r.
Qed.

End StringFacts.

(** ** The matcher against the meaning of patterns *)

Section RegexFacts.

Import Re.
Implicit Types (r : regex) (s : string) (c : ascii).

Lemma matches_cat_inv r1 r2 s :
  matches (Cat r1 r2) s ->
  exists s1 s2, s = s1 +:+ s2 /\ matches r1 s1 /\ matches r2 s2.
Proof. inversion 1; subst; eauto. Qed.

Lemma matches_chr_inv c s : matches (Chr c) s -> s = String c "".
Proof. by inversion 1. Qed.

Lemma matches_lit s : matches (Lit s) s.
Proof.
  induction s as [|c s IH]; simpl; [constructor |].
  change (String c s) with (String c "" +:+ s). by repeat constructor.
Qed.

Lemma matches_lit_inv s t : matches (Lit s) t -> t = s.
Proof.
  revert t. induction s as [|c s IH]; simpl; intros t H.
  - by inversion H.
  - apply matches_cat_inv in H as (s1 & s2 & -> & ->%matches_chr_inv & H2).
    rewrite append_cons, append_nil_l. f_equal. by apply IH.
Qed.

Lemma matches_dot_star s :
  Py.has_char Py.newline s = false -> matches (Star Dot) s.
Proof.
  induction s as [|c s IH]; simpl; [constructor |].
  intros [Hc Hs]%orb_false_elim.
  change (String c s) with (String c "" +:+ s).
  constructor; [|by apply IH].
  constructor. by apply Ascii.eqb_neq.
Qed.

Lemma matches_dot_plus s :
  s <> "" -> Py.has_char Py.newline s = false -> matches (Plus Dot) s.
Proof.
  destruct s as [|c s]; [done |]. simpl. intros _ [Hc Hs]%orb_false_elim.
  change (String c s) with (String c "" +:+ s).
  constructor; [|by apply matches_dot_star].
  constructor. by apply Ascii.eqb_neq.
Qed.

Lemma nullable_spec r : nullable r = true <-> matches r "".
Proof.
  induction r as [| | | |r1 IH1 r2 IH2|r1 IH1 r2 IH2|r IH]; simpl.
  - split; [done | inversion 1].
  - split; [constructor | done].
  - split; [done | inversion 1].
  - split; [done | inversion 1].
  - rewrite andb_true_iff, IH1, IH2. split.
    + intros [H1 H2]. change "" with ("" +:+ ""). by constructor.
    + intros (s1 & s2 & E & H1 & H2)%matches_cat_inv.
      destruct s1; [|discriminate]. rewrite append_nil_l in E. by subst.
  - rewrite orb_true_iff, IH1, IH2. split.
    + intros [H|H]; [by apply m_alt_l | by apply m_alt_r].
    + inversion 1; subst; auto.
  - split; [constructor | done].
Qed.

Lemma matches_cat_cons r1 r2 c s :
  matches (Cat r1 r2) (String c s) ->
  (exists s1 s2, s = s1 +:+ s2 /\ matches r1 (String c s1) /\ matches r2 s2) \/
  (matches r1 "" /\ matches r2 (String c s)).
Proof.
  intros (s1 & s2 & E & H1 & H2)%matches_cat_inv.
  destruct s1 as [|d s1].
  - rewrite append_nil_l in E. subst. by right.
  - rewrite append_cons in E. injection E as -> ->. left. by exists s1, s2.
Qed.

Lemma matches_star_cons r c s :
  matches (Star r) (String c s) ->
  exists s1 s2, s = s1 +:+ s2 /\ matches r (String c s1) /\ matches (Star r) s2.
Proof.
  intros H. remember (Star r) as r' eqn:Er. remember (String c s) as t eqn:Et.
  revert r c s Er Et.
  induction H as [| | | | | | |r0 s1 s2 H1 _ H2 IH2]; intros r' c' s' Er Et;
    try discriminate.
  injection Er as ->.
  destruct s1 as [|d s1].
  - rewrite append_nil_l in Et. by apply IH2.
  - rewrite append_cons in Et. injection Et as -> <-. by exists s1, s2.
Qed.

Lemma deriv_cat_spec c r1 r2 s :
  (forall s', matches (deriv c r1) s' <-> matches r1 (String c s')) ->
  matches (Cat (deriv c r1) r2) s <->
  exists s1 s2, s = s1 +:+ s2 /\ matches r1 (String c s1) /\ matches r2 s2.
Proof.
  intros IH1. split.
  - intros (s1 & s2 & -> & H1 & H2)%matches_cat_inv.
    exists s1, s2. by rewrite <- IH1.
  - intros (s1 & s2 & -> & H1 & H2). constructor; [by apply IH1 | done].
Qed.

Lemma deriv_spec c r s : matches (deriv c r) s <-> matches r (String c s).
Proof.
  revert s.
  induction r as [| | d | |r1 IH1 r2 IH2|r1 IH1 r2 IH2|r IH]; intros s; simpl.
  - split; inversion 1.
  - split; inversion 1.
  - destruct (Ascii.eqb_spec c d) as [->|Hne]; split; inversion 1; subst;
      [constructor | constructor | done].
  - destruct (Ascii.eqb_spec c Py.newline) as [->|Hne]; split; inversion 1;
      subst; [done | by constructor | constructor].
  - pose proof (deriv_cat_spec c r1 r2 s IH1) as Hcat.
    destruct (nullable r1) eqn:Hn; split.
    + inversion 1 as [| | | |? ? ? H1|? ? ? H2| |]; subst.
      * apply Hcat in H1 as (s1 & s2 & -> & H1 & H2).
        rewrite <- append_cons. by constructor.
      * apply IH2 in H2. rewrite <- (append_nil_l (String c s)).
        constructor; [by apply nullable_spec | done].
    + intros [(s1 & s2 & -> & H1 & H2)|[H1 H2]]%matches_cat_cons.
      * apply m_alt_l, Hcat. by exists s1, s2.
      * apply m_alt_r. by apply IH2.
    + intros (s1 & s2 & -> & H1 & H2)%Hcat.
      rewrite <- append_cons. by constructor.
    + intros [(s1 & s2 & -> & H1 & H2)|[H1 H2]]%matches_cat_cons.
      * apply Hcat. by exists s1, s2.
      * apply nullable_spec in H1. congruence.
  - split.
    + inversion 1; subst; [apply m_alt_l, IH1 | apply m_alt_r, IH2]; done.
    + inversion 1; subst; [apply m_alt_l, IH1 | apply m_alt_r, IH2]; done.
  - split.
    + intros (s1 & s2 & -> & H1 & H2)%matches_cat_inv.
      rewrite <- append_cons. constructor; [by apply IH | done].
    + intros (s1 & s2 & -> & H1 & H2)%matches_star_cons.
      constructor; [by apply IH | done].
Qed.

Lemma fullmatch_spec r s : fullmatch r s = true <-> matches r s.
Proof.
  revert r. induction s as [|c s IH]; intros r; simpl.
  - apply nullable_spec.
  - by rewrite IH, deriv_spec.
Qed.

(** [match_] answers whether the pattern matches a prefix of the text. *)
Lemma match_spec r s :
  match_ r s = true <-> exists p q, s = p +:+ q /\ matches r p.
Proof.
  revert r. induction s as [|c s IH]; intros r; simpl.
  - rewrite orb_false_r, nullable_spec. split.
    + intros H. by exists "", "".
    + intros (p & q & E & H). destruct p; [done | discriminate].
  - rewrite orb_true_iff, nullable_spec, IH. split.
    + intros [H|(p & q & -> & H)].
      * by exists "", (String c s).
      * exists (String c p), q. by rewrite deriv_spec in H.
    + intros (p & q & E & H). destruct p as [|d p].
      * by left.
      * rewrite append_cons in E. injection E as -> ->.
        right. exists p, q. by rewrite deriv_spec.
Qed.

End RegexFacts.

(** ** Dictionaries *)

Section DictFacts.

Implicit Types (d : StackToSampleCount) (k : string) (v : Z).

Lemma setitem_new k v d : k ∉ Dict.keys d -> Dict.setitem k v d = d ++ [(k, v)].
Proof.
  induction d as [|[k' v'] d IH]; simpl; [done |].
  intros [Hne Hd]%not_elem_of_cons.
  destruct (String.eqb_spec k' k) as [->|_]; [done |].
  by rewrite IH.
Qed.

Lemma get_elem_of k v d : Dict.wf d -> (k, v) ∈ d -> Dict.get k d = Some v.
Proof.
  unfold Dict.wf. induction d as [|[k' v'] d IH]; simpl.
  - by intros _ ?%elem_of_nil.
  - intros [Hk Hd]%NoDup_cons [E|Hin]%elem_of_cons.
    + injection E as -> ->. by rewrite String.eqb_refl.
    + destruct (String.eqb_spec k' k) as [->|_]; [|by apply IH].
      destruct Hk. change k with (fst (k, v)). by apply list_elem_of_fmap_2.
Qed.

Lemma total_cons k v d : Dict.total ((k, v) :: d) = (v + Dict.total d)%Z.
Proof. reflexivity. Qed.

Lemma total_app d1 d2 : Dict.total (d1 ++ d2) = (Dict.total d1 + Dict.total d2)%Z.
Proof.
  induction d1 as [|[k v] d1 IH]; [done |].
  rewrite <- app_comm_cons, !total_cons, IH. lia.
Qed.

(** Renaming the keys moves no count. *)
Lemma values_rename (f : string -> string) d :
  Dict.values (prod_map f id <$> d) = Dict.values d.
Proof.
  unfold Dict.values. rewrite <- list_fmap_compose.
  apply list_fmap_ext. by intros _ [k v] _.
Qed.

Lemma keys_rename (f : string -> string) d :
  Dict.keys (prod_map f id <$> d) = f <$> Dict.keys d.
Proof.
  unfold Dict.keys. rewrite <- !list_fmap_compose.
  apply list_fmap_ext. by intros _ [k v] _.
Qed.

End DictFacts.

(** ** [ProfilingErrorStack] *)

Section ErrorStackFacts.

Import ProfilingErrorStack.
Implicit Types (d source_stacks error_stack : StackToSampleCount).
Implicit Types (frame key error_frame : string).

#[local] Arguments attach_step : simpl never.

(** What the pattern matches holds a [;]. *)
Lemma pattern_match_has_sep key :
  Re.match_ PROFILING_ERROR_STACK_PATTERN key = true -> has_stack key.
Proof.
  intros (p & q & -> & H)%match_spec. unfold PROFILING_ERROR_STACK_PATTERN in H.
  apply matches_cat_inv in H as (s1 & s2 & -> & _ & H).
  apply matches_cat_inv in H as (s3 & s4 & -> & ->%matches_lit_inv & _).
  unfold has_stack. rewrite !has_char_app. simpl.
  by rewrite orb_true_r.
Qed.

Lemma is_error_stack_inv error_stack :
  is_error_stack error_stack = true ->
  exists key count, error_stack = [(key, count)] /\ has_stack key /\
    Re.match_ PROFILING_ERROR_STACK_PATTERN key = true.
Proof.
  unfold is_error_stack.
  destruct error_stack as [|[key count] [|? ?]]; simpl; try done.
  intros H. exists key, count. split_and!; [done | | done].
  by apply pattern_match_has_sep.
Qed.

(** The key is the command name, the error frame, then the stack. *)
Lemma annotate_key_cut error_frame comm stack :
  Py.has_char ";" comm = false ->
  annotate_key error_frame (comm +:+ String ";" stack)
  = annotated comm error_frame stack.
Proof. intros H. unfold annotate_key. by rewrite split_once_cut. Qed.

Lemma annotate_key_inj error_frame frame1 frame2 :
  has_stack frame1 -> has_stack frame2 ->
  annotate_key error_frame frame1 = annotate_key error_frame frame2 ->
  frame1 = frame2.
Proof.
  intros (c1 & s1 & _ & -> & H1)%split_once_present
         (c2 & s2 & _ & -> & H2)%split_once_present.
  rewrite !annotate_key_cut by done. unfold annotated.
  intros [-> E]%first_cut_unique; [|done..].
  apply (inj (String.app _)) in E.
  rewrite !append_cons, !append_nil_l in E. by injection E as ->.
Qed.

Lemma attach_step_ok error_frame d frame count :
  has_stack frame ->
  attach_step error_frame d (frame, count)
  = Ok (Dict.setitem (annotate_key error_frame frame) count d).
Proof.
  intros (a & b & E & _)%split_once_present.
  unfold attach_step, annotate_key. by rewrite E.
Qed.

Lemma attach_step_raises error_frame d frame count :
  Py.has_char ";" frame = false ->
  attach_step error_frame d (frame, count) = Raise ValueError.
Proof. intros H. unfold attach_step. by rewrite split_absent. Qed.

(** The loop over well-formed, pairwise distinct keys appends one
    renamed entry per source entry. *)
Lemma for_items_appends error_frame d source_stacks :
  Forall has_stack (Dict.keys source_stacks) ->
  NoDup (Dict.keys d ++ (annotate_key error_frame <$> Dict.keys source_stacks)) ->
  for_items (attach_step error_frame) d source_stacks
  = Ok (d ++ (prod_map (annotate_key error_frame) id <$> source_stacks)).
Proof.
  revert d. induction source_stacks as [|[frame count] src IH]; intros d; simpl.
  - intros _ _. by rewrite app_nil_r.
  - intros [Hf Hsrc]%Forall_cons Hnd.
    rewrite attach_step_ok by done. simpl.
    apply NoDup_app in Hnd as (Hd & Hdisj & Hnew).
    rewrite setitem_new by (intros Hin; eapply Hdisj; [done | left]).
    rewrite IH; [by rewrite <- app_assoc | done |].
    unfold Dict.keys. rewrite fmap_app. simpl. rewrite <- app_assoc. simpl.
    apply NoDup_app. split_and!; [done | | done].
    intros x Hx. by apply Hdisj.
Qed.

(** The loop never stops early when every key has a stack. *)
Lemma for_items_total error_frame d source_stacks :
  Forall has_stack (Dict.keys source_stacks) ->
  exists dest, for_items (attach_step error_frame) d source_stacks = Ok dest.
Proof.
  revert d. induction source_stacks as [|[frame count] src IH]; intros d; simpl.
  - intros _. by exists d.
  - intros [Hf Hsrc]%Forall_cons.
    rewrite attach_step_ok by done. simpl. by apply IH.
Qed.

Lemma for_items_raises error_frame d source_stacks :
  Exists (fun frame => Py.has_char ";" frame = false) (Dict.keys source_stacks) ->
  for_items (attach_step error_frame) d source_stacks = Raise ValueError.
Proof.
  revert d. induction source_stacks as [|[frame count] src IH]; intros d; simpl.
  - by intros ?%Exists_nil.
  - intros [Hf|Hsrc]%Exists_cons.
    + by rewrite attach_step_raises.
    + destruct (Py.has_char ";" frame) eqn:E.
      * rewrite attach_step_ok by done. simpl. by apply IH.
      * by rewrite attach_step_raises.
Qed.

End ErrorStackFacts.

Section ErrorStackTheorems.

Import ProfilingErrorStack.
Implicit Types (source_stacks error_stack dest : StackToSampleCount).

(** C1: annotating the stacks [{"python;main;foo": 5, "python;main;bar": 3}]
    with the error stack built from [("cpu", "permission denied", "python")]
    gives exactly [{"python;[Profiling cpu: permission denied];main;foo": 5,
    "python;[Profiling cpu: permission denied];main;bar": 3}]. *)
Theorem attach_error_to_stacks_example :
  exists error_stack,
    __init__ "cpu" "permission denied" "python" = Ok error_stack /\
    attach_error_to_stacks
      [("python;main;foo", 5%Z); ("python;main;bar", 3%Z)] error_stack
    = Ok [("python;[Profiling cpu: permission denied];main;foo", 5%Z);
          ("python;[Profiling cpu: permission denied];main;bar", 3%Z)].
Proof.
  exists [("python;[Profiling cpu: permission denied]", 1%Z)].
  split; vm_compute; reflexivity.
Qed.

(** C2: when the keys of [source_stacks] are pairwise distinct (as the
    keys of a dictionary are) and each holds a [;], annotating with an
    error stack succeeds; the result has one entry per source entry,
    under the renamed key and with the same count, the renaming is
    injective, so the keys are again pairwise distinct, and the counts
    add up to the same sum. *)
Theorem attach_error_to_stacks_preserves_counts source_stacks error_stack :
  Dict.wf source_stacks ->
  Forall has_stack (Dict.keys source_stacks) ->
  is_error_stack error_stack = true ->
  exists comm error_frame dest,
    Dict.next_iter error_stack = Ok (comm +:+ String ";" error_frame) /\
    Py.has_char ";" comm = false /\
    attach_error_to_stacks source_stacks error_stack = Ok dest /\
    dest = (prod_map (annotate_key error_frame) id <$> source_stacks) /\
    (forall frame1 frame2, has_stack frame1 -> has_stack frame2 ->
       annotate_key error_frame frame1 = annotate_key error_frame frame2 ->
       frame1 = frame2) /\
    Dict.wf dest /\
    Dict.len dest = Dict.len source_stacks /\
    Dict.values dest = Dict.values source_stacks /\
    (forall frame count, (frame, count) ∈ source_stacks ->
       Dict.get (annotate_key error_frame frame) dest = Some count) /\
    Dict.total dest = Dict.total source_stacks.
Proof.
  intros Hwf Hkeys (key & n & -> & Hkey & _)%is_error_stack_inv.
  apply split_once_present in Hkey as (comm & error_frame & Hsplit & -> & Hcomm).
  assert (Dict.wf (prod_map (annotate_key error_frame) id <$> source_stacks))
    as Hwf'.
  { unfold Dict.wf. rewrite keys_rename.
    apply NoDup_fmap_2_strong; [|done].
    intros k1 k2 H1 H2. rewrite Forall_forall in Hkeys.
    apply annotate_key_inj; by apply Hkeys. }
  exists comm, error_frame, (prod_map (annotate_key error_frame) id <$> source_stacks).
  split_and!; try done.
  - unfold attach_error_to_stacks. simpl. rewrite Hsplit. simpl.
    rewrite for_items_appends; [done | done |].
    simpl. by rewrite <- keys_rename.
  - intros frame1 frame2. apply annotate_key_inj.
  - unfold Dict.len. by rewrite length_fmap.
  - apply values_rename.
  - intros frame count Hin. apply get_elem_of; [done |].
    by apply (list_elem_of_fmap_2 (prod_map (annotate_key error_frame) id)) in Hin.
  - unfold Dict.total. by rewrite values_rename.
Qed.

Lemma attach_error_to_stacks_preserves_counts_witness :
  exists comm error_frame dest,
    Dict.next_iter [("python;[Profiling cpu: permission denied]", 1%Z)]
    = Ok (comm +:+ String ";" error_frame) /\
    Py.has_char ";" comm = false /\
    attach_error_to_stacks
      [("python;main;foo", 5%Z); ("python;main;bar", 3%Z)]
      [("python;[Profiling cpu: permission denied]", 1%Z)]
    = Ok dest /\
    dest = (prod_map (annotate_key error_frame) id
              <$> [("python;main;foo", 5%Z); ("python;main;bar", 3%Z)]) /\
    (forall frame1 frame2, has_stack frame1 -> has_stack frame2 ->
       annotate_key error_frame frame1 = annotate_key error_frame frame2 ->
       frame1 = frame2) /\
    Dict.wf dest /\
    Dict.len dest = 2 /\
    Dict.values dest = [5%Z; 3%Z] /\
    (forall frame count,
       (frame, count) ∈ [("python;main;foo", 5%Z); ("python;main;bar", 3%Z)] ->
       Dict.get (annotate_key error_frame frame) dest = Some count) /\
    Dict.total dest = 8%Z.
Proof.
  apply (attach_error_to_stacks_preserves_counts
           [("python;main;foo", 5%Z); ("python;main;bar", 3%Z)]
           [("python;[Profiling cpu: permission denied]", 1%Z)]).
  - unfold Dict.wf. simpl. apply NoDup_cons. split; [|apply NoDup_singleton].
    intros H%list_elem_of_singleton. discriminate H.
  - repeat constructor.
  - vm_compute. reflexivity.
Defined.

(** C4: with a non-empty [error_stack] whose first key holds a [;] and
    source keys that each hold a [;], the operation returns a container
    and raises nothing. *)
Theorem attach_error_to_stacks_total source_stacks error_stack key count rest :
  error_stack = (key, count) :: rest ->
  has_stack key ->
  Forall has_stack (Dict.keys source_stacks) ->
  exists dest, attach_error_to_stacks source_stacks error_stack = Ok dest.
Proof.
  intros -> (comm & error_frame & Hsplit & _)%split_once_present Hkeys.
  unfold attach_error_to_stacks. simpl. rewrite Hsplit. simpl.
  by apply for_items_total.
Qed.

Lemma attach_error_to_stacks_total_witness :
  exists dest,
    attach_error_to_stacks
      [("python;main;foo", 5%Z); ("python;main;bar", 3%Z)]
      [("python;[Profiling cpu: permission denied]", 1%Z); ("other", 2%Z)]
    = Ok dest.
Proof.
  apply (attach_error_to_stacks_total _ _
           "python;[Profiling cpu: permission denied]" 1%Z [("other", 2%Z)]).
  - reflexivity.
  - reflexivity.
  - repeat constructor.
Defined.

(** X2: a source key without [;] makes the unpacking of the split
    raise [ValueError]. *)
Theorem attach_error_to_stacks_malformed_key source_stacks error_stack key count rest :
  error_stack = (key, count) :: rest ->
  has_stack key ->
  Exists (fun frame => Py.has_char ";" frame = false) (Dict.keys source_stacks) ->
  attach_error_to_stacks source_stacks error_stack = Raise ValueError.
Proof.
  intros -> (comm & error_frame & Hsplit & _)%split_once_present Hkeys.
  unfold attach_error_to_stacks. simpl. rewrite Hsplit. simpl.
  by apply for_items_raises.
Qed.

Lemma attach_error_to_stacks_malformed_key_witness :
  attach_error_to_stacks [("python;main;foo", 5%Z); ("swapper", 3%Z)]
    [("python;[Profiling cpu: permission denied]", 1%Z)]
  = Raise ValueError.
Proof.
  apply (attach_error_to_stacks_malformed_key _ _
           "python;[Profiling cpu: permission denied]" 1%Z []).
  - reflexivity.
  - reflexivity.
  - apply Exists_cons_tl, Exists_cons_hd. reflexivity.
Defined.

(** The pattern matches every key built from newline-free parts with
    [what] and [reason] non-empty. *)
Lemma error_key_matches what reason comm :
  what <> "" -> reason <> "" ->
  Py.has_char Py.newline what = false ->
  Py.has_char Py.newline reason = false ->
  Py.has_char Py.newline comm = false ->
  Re.match_ PROFILING_ERROR_STACK_PATTERN (error_key what reason comm) = true.
Proof.
  intros Hw Hr Hnw Hnr Hnc. apply match_spec.
  exists (error_key what reason comm), "". split; [by rewrite append_nil_r |].
  unfold error_key, PROFILING_ERROR_STACK_PATTERN.
  apply Re.m_cat; [by apply matches_dot_star |].
  apply Re.m_cat; [apply matches_lit |].
  apply Re.m_cat; [by apply matches_dot_plus |].
  apply Re.m_cat; [apply matches_lit |].
  apply Re.m_cat; [by apply matches_dot_plus | apply matches_lit].
Qed.

(** X1: the constructor succeeds on newline-free text: the result is
    the single entry [error_key what reason comm] with count 1, and it
    satisfies [is_error_stack]. *)
Theorem init_ok_without_newline what reason comm :
  what <> "" -> reason <> "" ->
  Py.has_char Py.newline what = false ->
  Py.has_char Py.newline reason = false ->
  Py.has_char Py.newline comm = false ->
  __init__ what reason comm = Ok [(error_key what reason comm, 1%Z)] /\
  is_error_stack [(error_key what reason comm, 1%Z)] = true.
Proof.
  intros Hw Hr Hnw Hnr Hnc.
  pose proof (error_key_matches what reason comm Hw Hr Hnw Hnr Hnc) as Hm.
  assert (is_error_stack [(error_key what reason comm, 1%Z)] = true) as His.
  { unfold is_error_stack. simpl. exact Hm. }
  split; [|done]. unfold __init__.
  change (Dict.update [] [(error_key what reason comm, 1%Z)])
    with [(error_key what reason comm, 1%Z)].
  by rewrite His.
Qed.

Lemma init_ok_without_newline_witness :
  __init__ "cpu" "permission denied" "python"
  = Ok [(error_key "cpu" "permission denied" "python", 1%Z)] /\
  is_error_stack [(error_key "cpu" "permission denied" "python", 1%Z)] = true.
Proof.
  apply (init_ok_without_newline "cpu" "permission denied" "python");
    [discriminate | discriminate | reflexivity..].
Defined.

(** C3, at a [reason] of two lines: the pattern's [.] stops at the
    newline, the built stack fails [is_error_stack], and the
    constructor's own assertion raises. *)
Theorem init_raises_on_newline :
  "cpu" <> "" /\ "timed out" +:+ String Py.newline "retrying" <> "" /\
  "python" <> "" /\
  is_error_stack
    [(error_key "cpu" ("timed out" +:+ String Py.newline "retrying") "python", 1%Z)]
  = false /\
  __init__ "cpu" ("timed out" +:+ String Py.newline "retrying") "python"
  = Raise AssertionError.
Proof. split_and!; try discriminate; vm_compute; reflexivity. Qed.

End ErrorStackTheorems.

(** ** The operation on the heap *)

Section HeapFacts.

Implicit Types (h : gmap nat StackToSampleCount) (l dest : Heap.loc).
Implicit Types (d src es : StackToSampleCount).

Lemma bind_run {A B} (m : Heap.M A) (k : A -> Heap.M B) h :
  (m ≫= k) h =
  match m h with
  | (Ok a, h') => k a h'
  | (Raise e, h') => (Raise e, h')
  end.
Proof. reflexivity. Qed.

Lemma load_run l d h : h !! l = Some d -> Heap.load l h = (Ok d, h).
Proof. intros H. unfold Heap.load. by rewrite H. Qed.

Lemma setitem_run l k v d h :
  h !! l = Some d ->
  Heap.setitem l k v h = (Ok tt, <[l := Dict.setitem k v d]> h).
Proof.
  intros H. unfold Heap.setitem. by rewrite bind_run, (load_run l d).
Qed.

Lemma iter_next_run l d p h :
  h !! l = Some d ->
  Heap.iter_next {| Heap.di_dict := l; Heap.di_used := length d; Heap.di_pos := p |} h
  = (Ok (d !! p), h).
Proof.
  intros H. unfold Heap.iter_next. simpl.
  by rewrite bind_run, (load_run l d), Nat.eqb_refl.
Qed.

(** One turn of the loop writes to [dest] only, and does what the
    loop body on values does. *)
Lemma attach_step_run error_frame dest d item h :
  h !! dest = Some d ->
  exists d',
    Heap.attach_step error_frame dest item h
    = (match ProfilingErrorStack.attach_step error_frame d item with
       | Ok _ => Ok tt
       | Raise e => Raise e
       end, <[dest := d']> h) /\
    (forall d'', ProfilingErrorStack.attach_step error_frame d item = Ok d'' -> d' = d'').
Proof.
  intros Hd. destruct item as [frame count].
  unfold Heap.attach_step, ProfilingErrorStack.attach_step.
  rewrite bind_run. unfold Heap.lift.
  destruct (Py.unpack2 (Py.split ";" (Some 1) frame)) as [[comm stack]|e]; simpl.
  - eexists. rewrite (setitem_run _ _ _ d) by done. split; [done |].
    by intros ? [= <-].
  - exists d. by rewrite insert_id.
Qed.

(** The loop from position [p] on: only [dest] changes, and the
    outcome is the one of the loop on values over the entries left. *)
Lemma for_items_run error_frame source dest src n : forall p d h,
  source <> dest ->
  h !! source = Some src -> h !! dest = Some d ->
  n + p = length src ->
  exists d',
    Heap.for_items n
      {| Heap.di_dict := source; Heap.di_used := length src; Heap.di_pos := p |}
      (Heap.attach_step error_frame dest) h
    = (match ProfilingErrorStack.for_items
               (ProfilingErrorStack.attach_step error_frame) d (drop p src) with
       | Ok _ => Ok tt
       | Raise e => Raise e
       end, <[dest := d']> h) /\
    (forall d'', ProfilingErrorStack.for_items
                   (ProfilingErrorStack.attach_step error_frame) d (drop p src) = Ok d'' ->
                 d' = d'').
Proof.
  induction n as [|n IH]; intros p d h Hne Hsrc Hdest Hlen.
  - assert (src !! p = None) as Hp by (apply lookup_ge_None; lia).
    exists d. simpl. rewrite bind_run, (iter_next_run _ src) by done.
    rewrite Hp, drop_ge by lia. simpl. rewrite insert_id by done.
    split; [done | by intros ? [= <-]].
  - destruct (lookup_lt_is_Some_2 src p) as [item Hp]; [lia |].
    simpl. rewrite bind_run, (iter_next_run _ src) by done.
    rewrite Hp, (drop_S _ _ _ Hp). simpl. rewrite bind_run.
    destruct (attach_step_run error_frame dest d item h Hdest) as (d1 & -> & Hd1).
    destruct (ProfilingErrorStack.attach_step error_frame d item) as [d1'|e] eqn:Estep.
    + specialize (Hd1 d1' eq_refl) as ->. simpl.
      destruct (IH (S p) d1' (<[dest := d1']> h)) as (d2 & Hrun & Hd2).
      * done.
      * by rewrite lookup_insert_ne.
      * by rewrite lookup_insert_eq.
      * lia.
      * exists d2. unfold Heap.advance. simpl. rewrite Hrun.
        by rewrite insert_insert_eq.
    + exists d1. split; [done | by intros ? [=]].
Qed.

(** The operation on the heap: its outcome is the one of
    [ProfilingErrorStack.attach_error_to_stacks] on the values held by
    the two arguments, and it writes to a new object only. *)
Lemma attach_error_to_stacks_run h source error src es :
  h !! source = Some src -> h !! error = Some es ->
  exists h',
    Heap.attach_error_to_stacks source error h
    = (match ProfilingErrorStack.attach_error_to_stacks src es with
       | Ok _ => Ok (fresh (dom h))
       | Raise e => Raise e
       end, h') /\
    (forall l, l <> fresh (dom h) -> h' !! l = h !! l) /\
    (forall d, ProfilingErrorStack.attach_error_to_stacks src es = Ok d ->
               h' !! fresh (dom h) = Some d).
Proof.
  intros Hsrc Hes.
  unfold Heap.attach_error_to_stacks, ProfilingErrorStack.attach_error_to_stacks.
  rewrite bind_run, (load_run _ es) by done.
  rewrite bind_run. unfold Heap.lift.
  destruct (Dict.next_iter es) as [key|e]; simpl; [|by exists h].
  rewrite bind_run.
  destruct (Py.unpack2 (Py.split ";" (Some 1) key)) as [[comm error_frame]|e];
    simpl; [|by exists h].
  rewrite bind_run. unfold Heap.alloc.
  set (dest := fresh (dom h)).
  assert (h !! dest = None) as Hfresh by (apply not_elem_of_dom, is_fresh).
  assert (source <> dest) as Hne by (intros ->; congruence).
  rewrite bind_run. unfold Heap.iter_items.
  rewrite bind_run, (load_run _ src) by (by rewrite lookup_insert_ne).
  unfold mret at 1, Heap.M_ret at 1. simpl Heap.di_used. rewrite bind_run.
  destruct (for_items_run error_frame source dest src (length src) 0 []
              (<[dest := []]> h)) as (d' & -> & Hd').
  - done.
  - by rewrite lookup_insert_ne.
  - by rewrite lookup_insert_eq.
  - lia.
  - rewrite drop_0 in *. rewrite insert_insert_eq.
    exists (<[dest := d']> h).
    destruct (ProfilingErrorStack.for_items _ [] src) as [d|e] eqn:Efor.
    + split_and!; [done | |].
      * intros l Hl. by rewrite lookup_insert_ne.
      * intros ? [= <-]. rewrite (Hd' d eq_refl). apply lookup_insert_eq.
    + split_and!; [done | | done].
      intros l Hl. by rewrite lookup_insert_ne.
Qed.

(** C9: a successful call returns an object that was not on the heap
    before, holding the annotated stacks; every object that was there,
    the two arguments among them (also when they are one object),
    holds the keys and counts it held before. *)
Theorem attach_error_to_stacks_frame h source error src es dest h' :
  h !! source = Some src -> h !! error = Some es ->
  Heap.attach_error_to_stacks source error h = (Ok dest, h') ->
  h !! dest = None /\
  h' !! source = Some src /\
  h' !! error = Some es /\
  (forall l, l <> dest -> h' !! l = h !! l) /\
  exists d, ProfilingErrorStack.attach_error_to_stacks src es = Ok d /\
            h' !! dest = Some d.
Proof.
  intros Hsrc Hes Hrun.
  destruct (attach_error_to_stacks_run h source error src es Hsrc Hes)
    as (h'' & Hrun' & Hframe & Hdest).
  rewrite Hrun in Hrun'.
  destruct (ProfilingErrorStack.attach_error_to_stacks src es) as [d|e];
    [|discriminate].
  injection Hrun' as -> ->.
  assert (h !! fresh (dom h) = None) as Hfresh by (apply not_elem_of_dom, is_fresh).
  split_and!.
  - done.
  - rewrite Hframe; [done | intros ->; congruence].
  - rewrite Hframe; [done | intros ->; congruence].
  - done.
  - exists d. split; [done | by apply Hdest].
Qed.

Lemma attach_error_to_stacks_frame_witness :
  let dest := 2 in
  let d := [("python;[Profiling cpu: permission denied];main;foo", 5%Z);
            ("python;[Profiling cpu: permission denied];main;bar", 3%Z)] in
  let h' := <[dest := d]> sample_heap in
  sample_heap !! dest = None /\
  h' !! 0 = Some sample_stacks /\
  h' !! 1 = Some sample_error_stack /\
  (forall l, l <> dest -> h' !! l = sample_heap !! l) /\
  exists d0,
    ProfilingErrorStack.attach_error_to_stacks sample_stacks sample_error_stack
    = Ok d0 /\
    h' !! dest = Some d0.
Proof.
  apply (attach_error_to_stacks_frame sample_heap 0 1 sample_stacks sample_error_stack).
  - reflexivity.
  - reflexivity.
  - vm_compute. reflexivity.
Defined.

End HeapFacts.

(** ** Argument validators *)

Section ValidatorFacts.

Implicit Types (value_str : string) (value : Z) (options values : list string).

Lemma result_bind_ok {A B} (m : result A) (k : A -> result B) b :
  m ≫= k = Ok b <-> exists a, m = Ok a /\ k a = Ok b.
Proof.
  destruct m as [a|e]; simpl; split.
  - intros H. by exists a.
  - by intros (? & [= <-] & H).
  - done.
  - by intros (? & [=] & _).
Qed.

Lemma result_bind_raise {A B} (m : result A) (k : A -> result B) e :
  m ≫= k = Raise e <-> m = Raise e \/ exists a, m = Ok a /\ k a = Raise e.
Proof.
  destruct m as [a|e']; simpl; split.
  - intros H. right. by exists a.
  - by intros [[=]|(? & [= <-] & H)].
  - intros [= <-]. by left.
  - by intros [[= <-]|(? & [=] & _)].
Qed.

Lemma int_or_raise_ok value_str value :
  Py.int_or_raise value_str = Ok value <-> Py.int value_str = Some value.
Proof.
  unfold Py.int_or_raise.
  destruct (Py.int value_str); split; intros H; by simplify_eq.
Qed.

Lemma int_or_raise_error value_str e :
  Py.int_or_raise value_str = Raise e <-> Py.int value_str = None /\ e = ValueError.
Proof.
  unfold Py.int_or_raise. destruct (Py.int value_str); split.
  - done.
  - by intros [? _].
  - by intros [= <-].
  - by intros [_ ->].
Qed.

Lemma mapM_cons {A B} (f : A -> result B) x l :
  mapM f (x :: l) = (y ← f x; k ← mapM f l; mret (y :: k)).
Proof. reflexivity. Qed.

(** The comprehension [[int(value) for value in segments]]. *)
Lemma mapM_int_ok segments ints :
  mapM Py.int_or_raise segments = Ok ints <->
  Forall2 (fun segment value => Py.int segment = Some value) segments ints.
Proof.
  revert ints. induction segments as [|segment segments IH]; intros ints.
  - split; [intros [= <-]; constructor | by inversion 1].
  - rewrite mapM_cons. split.
    + intros (v & Hv & (vs & Hvs & [= <-])%result_bind_ok)%result_bind_ok.
      constructor; [by apply int_or_raise_ok | by apply IH].
    + inversion 1 as [|? w ? ws Hw Hws]; subst.
      apply result_bind_ok. exists w. split; [by apply int_or_raise_ok |].
      apply result_bind_ok. exists ws. split; [by apply IH | done].
Qed.

Lemma mapM_int_error segments e :
  mapM Py.int_or_raise segments = Raise e <->
  Exists (fun segment => Py.int segment = None) segments /\ e = ValueError.
Proof.
  induction segments as [|segment segments IH].
  - split; [done | by intros [?%Exists_nil _]].
  - rewrite mapM_cons, Exists_cons. split.
    + intros [H|(v & Hv & [H|(vs & _ & [=])]%result_bind_raise)]%result_bind_raise.
      * apply int_or_raise_error in H as [H ->]. auto.
      * apply IH in H as [H ->]. auto.
    + intros [[H|H] ->]; apply result_bind_raise.
      * left. by apply int_or_raise_error.
      * destruct (Py.int_or_raise segment) as [v|e] eqn:E.
        -- right. exists v. split; [done |].
           apply result_bind_raise. left. by apply IH.
        -- left. by apply int_or_raise_error in E as [_ ->].
Qed.

Lemma check_options_ok options values :
  check_options options values = Ok tt <-> Forall (.∈ options) values.
Proof.
  induction values as [|v values IH]; simpl.
  - split; [constructor | done].
  - rewrite Forall_cons. case_bool_decide as Hv.
    + rewrite IH. split; [by intros ? | by intros [_ ?]].
    + split; [done | by intros [? _]].
Qed.

Lemma check_options_error options values pre v post :
  values = pre ++ v :: post ->
  Forall (.∈ options) pre -> (v ∉ options) ->
  check_options options values = Raise (ArgumentTypeError (enum_message v options)).
Proof.
  intros -> Hpre Hv. induction Hpre as [|w pre Hw _ IH]; simpl.
  - by rewrite bool_decide_eq_false_2.
  - by rewrite bool_decide_eq_true_2.
Qed.

(** A failing check is about some first disallowed value. *)
Lemma check_options_error_inv options values e :
  check_options options values = Raise e ->
  exists pre v post,
    values = pre ++ v :: post /\ Forall (.∈ options) pre /\ (v ∉ options) /\
    e = ArgumentTypeError (enum_message v options).
Proof.
  induction values as [|w values IH]; simpl; [done |].
  case_bool_decide as Hw.
  - intros (pre & v & post & -> & Hpre & Hv & ->)%IH.
    exists (w :: pre), v, post. split_and!; try done. by constructor.
  - intros [= <-]. exists [], w, values. split_and!; try done.
Qed.

End ValidatorFacts.

(** Closes a goal by evaluation, unless it speaks of [x] or [y]. *)
Ltac evaluate_unless_about x y :=
  lazymatch goal with
  | |- context [x] => fail
  | |- context [y] => fail
  | |- _ => vm_compute; reflexivity
  end.

Section ValidatorTheorems.

Implicit Types (value_str : string) (value : Z) (options values : list string).

(** C8: [positive_integer] returns the parsed integer exactly when it
    is positive, and raises [ArgumentTypeError] exactly when the text
    parses to an integer that is zero or negative; ["0"] and ["-3"]
    fail, ["1"] gives 1. *)
Theorem positive_integer_spec value_str :
  (forall value, positive_integer value_str = Ok value <->
                 Py.int value_str = Some value /\ (0 < value)%Z) /\
  (forall msg, positive_integer value_str = Raise (ArgumentTypeError msg) <->
               exists value, Py.int value_str = Some value /\ (value <= 0)%Z /\
                 msg = "invalid positive integer value: " +:+ Py.repr_int value) /\
  positive_integer "0"
  = Raise (ArgumentTypeError "invalid positive integer value: 0") /\
  positive_integer "-3"
  = Raise (ArgumentTypeError "invalid positive integer value: -3") /\
  positive_integer "1" = Ok 1%Z.
Proof.
  split_and!; try (evaluate_unless_about value_str value_str).
  - intros value. unfold positive_integer. rewrite result_bind_ok. split.
    + intros (v & Hv%int_or_raise_ok & H).
      destruct (Z.leb_spec v 0); [done |]. injection H as <-. done.
    + intros [Hv Hpos]. exists value. split; [by apply int_or_raise_ok |].
      destruct (Z.leb_spec value 0); [lia | done].
  - intros msg. unfold positive_integer. rewrite result_bind_raise. split.
    + intros [[_ [=]]%int_or_raise_error|(v & Hv%int_or_raise_ok & H)].
      destruct (Z.leb_spec v 0); [|done]. injection H as <-. by exists v.
    + intros (v & Hv & Hle & ->). right. exists v.
      split; [by apply int_or_raise_ok |].
      destruct (Z.leb_spec v 0); [done | lia].
Qed.

(** X3: [nonnegative_integer] returns the parsed integer exactly when
    it is not negative, and raises [ArgumentTypeError] exactly when the text
    parses to a negative integer. *)
Theorem nonnegative_integer_spec value_str :
  (forall value, nonnegative_integer value_str = Ok value <->
                 Py.int value_str = Some value /\ (0 <= value)%Z) /\
  (forall msg, nonnegative_integer value_str = Raise (ArgumentTypeError msg) <->
               exists value, Py.int value_str = Some value /\ (value < 0)%Z /\
                 msg = "invalid non-negative integer value: " +:+ Py.repr_int value) /\
  nonnegative_integer "0" = Ok 0%Z /\
  nonnegative_integer "-3"
  = Raise (ArgumentTypeError "invalid non-negative integer value: -3").
Proof.
  split_and!; try (evaluate_unless_about value_str value_str).
  - intros value. unfold nonnegative_integer. rewrite result_bind_ok. split.
    + intros (v & Hv%int_or_raise_ok & H).
      destruct (Z.ltb_spec v 0); [done |]. injection H as <-. done.
    + intros [Hv Hpos]. exists value. split; [by apply int_or_raise_ok |].
      destruct (Z.ltb_spec value 0); [lia | done].
  - intros msg. unfold nonnegative_integer. rewrite result_bind_raise. split.
    + intros [[_ [=]]%int_or_raise_error|(v & Hv%int_or_raise_ok & H)].
      destruct (Z.ltb_spec v 0); [|done]. injection H as <-. by exists v.
    + intros (v & Hv & Hle & ->). right. exists v.
      split; [by apply int_or_raise_ok |].
      destruct (Z.ltb_spec v 0); [done | lia].
Qed.

(** C6: the validator [integer_range min_range max_range] returns the
    parsed integer exactly when it lies in [[min_range, max_range)],
    and raises [ArgumentTypeError] exactly when the text parses to an
    integer below [min_range] or at or above [max_range]; for the range
    0-10, ["10"] fails and ["9"] gives 9. *)
Theorem integer_range_spec (min_range max_range : Z) value_str :
  (forall value, integer_range min_range max_range value_str = Ok value <->
                 Py.int value_str = Some value /\
                 (min_range <= value < max_range)%Z) /\
  (forall msg,
     integer_range min_range max_range value_str = Raise (ArgumentTypeError msg) <->
     exists value, Py.int value_str = Some value /\
       (value < min_range \/ max_range <= value)%Z /\
       msg = "invalid integer value " +:+ Py.repr_int value +:+ " (out of range "
             +:+ Py.repr_int min_range +:+ "-" +:+ Py.repr_int max_range +:+ ")") /\
  integer_range 0 10 "10"
  = Raise (ArgumentTypeError "invalid integer value 10 (out of range 0-10)") /\
  integer_range 0 10 "9" = Ok 9%Z.
Proof.
  split_and!; try (evaluate_unless_about value_str value_str).
  - intros value. unfold integer_range. rewrite result_bind_ok. split.
    + intros (v & Hv%int_or_raise_ok & H).
      destruct (Z.ltb_spec v min_range), (Z.leb_spec max_range v); try done.
      injection H as <-. split; [done | lia].
    + intros [Hv Hin]. exists value. split; [by apply int_or_raise_ok |].
      destruct (Z.ltb_spec value min_range), (Z.leb_spec max_range value);
        simpl; (done || lia).
  - intros msg. unfold integer_range. rewrite result_bind_raise. split.
    + intros [[_ [=]]%int_or_raise_error|(v & Hv%int_or_raise_ok & H)].
      destruct (Z.ltb_spec v min_range), (Z.leb_spec max_range v);
        simpl in H; try done; injection H as <-; exists v;
        (split_and!; [done | lia | done]).
    + intros (v & Hv & Hout & ->). right. exists v.
      split; [by apply int_or_raise_ok |].
      destruct (Z.ltb_spec v min_range), (Z.leb_spec max_range v);
        simpl; (done || lia).
Qed.

(** C5, as the code has it: [integers_list] splits the text at the
    commas and returns the integers the segments parse to, in order;
    when some segment is no integer it raises [ArgumentTypeError] with
    one fixed message, the same for every rejected text.  ["1,2,3"]
    gives [[1,2,3]]; ["1,2,x"] fails, with that message, in which
    neither ["x"] nor ["1,2,x"] occurs. *)
Theorem integers_list_spec value_str :
  (forall ints, integers_list value_str = Ok ints <->
     Forall2 (fun segment value => Py.int segment = Some value)
             (Py.split "," None value_str) ints) /\
  (forall e, integers_list value_str = Raise e <->
     Exists (fun segment => Py.int segment = None) (Py.split "," None value_str) /\
     e = ArgumentTypeError integers_list_message) /\
  (forall other e e',
     integers_list value_str = Raise e -> integers_list other = Raise e' ->
     e' = e) /\
  integers_list "1,2,3" = Ok [1%Z; 2%Z; 3%Z] /\
  integers_list "1,2,x" = Raise (ArgumentTypeError integers_list_message) /\
  Py.contains "x" integers_list_message = false /\
  Py.contains "1,2,x" integers_list_message = false.
Proof.
  split_and!; try (evaluate_unless_about value_str value_str).
  - intros ints. rewrite <- mapM_int_ok. unfold integers_list.
    destruct (mapM Py.int_or_raise _) as [vs|[]]; split; intros H; by simplify_eq.
  - intros e. unfold integers_list.
    destruct (mapM Py.int_or_raise _) as [vs|e'] eqn:Em.
    + split; [done |]. intros [Hex _].
      assert (mapM Py.int_or_raise (Py.split "," None value_str) = Raise ValueError)
        as H by (by apply mapM_int_error).
      congruence.
    + apply mapM_int_error in Em as [Hex ->]. split.
      * by intros [= <-].
      * by intros [_ ->].
  - intros other e e'. unfold integers_list.
    destruct (mapM Py.int_or_raise (Py.split "," None value_str))
      as [vs|e1] eqn:E1; [done |].
    destruct (mapM Py.int_or_raise (Py.split "," None other))
      as [ws|e2] eqn:E2; [done |].
    apply mapM_int_error in E1 as [_ ->]. apply mapM_int_error in E2 as [_ ->].
    by intros [= <-] [= <-].
Qed.

(** C5 as stated fails: the message raised for ["1,2,x"] holds neither
    the offending segment nor the text. *)
Lemma integers_list_message_omits_text :
  ~ exists msg,
      integers_list "1,2,x" = Raise (ArgumentTypeError msg) /\
      (Py.contains "x" msg = true \/ Py.contains "1,2,x" msg = true).
Proof.
  intros (msg & H & Hc). vm_compute in H. injection H as <-.
  vm_compute in Hc. destruct Hc as [Hc|Hc]; discriminate Hc.
Qed.

(** C7: [comma_separated_enum_list] returns the pieces of the text
    between the commas, in order and with repetitions, exactly when
    each is an allowed option; otherwise it raises [ArgumentTypeError]
    with a message that holds [repr] of the first piece that is not
    allowed.  With the options [a] and [b], ["a,b,a"] gives
    [["a","b","a"]] and ["a,c"] fails naming ['c']. *)
Theorem comma_separated_enum_list_spec options (value : string) :
  Py.join "," (Py.split "," None value) = value /\
  Forall (fun piece => Py.has_char "," piece = false) (Py.split "," None value) /\
  (forall values, comma_separated_enum_list options value = Ok values <->
     values = Py.split "," None value /\ Forall (.∈ options) values) /\
  (forall e, comma_separated_enum_list options value = Raise e <->
     exists pre v post,
       Py.split "," None value = pre ++ v :: post /\
       Forall (.∈ options) pre /\ (v ∉ options) /\
       e = ArgumentTypeError (enum_message v options)) /\
  (forall v, Py.contains (Py.repr_str v) (enum_message v options) = true) /\
  comma_separated_enum_list ["a"; "b"] "a,b,a" = Ok ["a"; "b"; "a"] /\
  comma_separated_enum_list ["a"; "b"] "a,c"
  = Raise (ArgumentTypeError "invalid value 'c' (allowed values: ['a', 'b'])").
Proof.
  split_and!; try (evaluate_unless_about value options).
  - apply join_split.
  - apply split_pieces.
  - intros values. unfold comma_separated_enum_list. rewrite result_bind_ok. split.
    + intros ([] & Hcheck%check_options_ok & [= <-]). done.
    + intros [-> Hall]. exists tt. split; [by apply check_options_ok | done].
  - intros e. unfold comma_separated_enum_list. rewrite result_bind_raise. split.
    + intros [H|(? & _ & [=])]. by apply check_options_error_inv.
    + intros (pre & v & post & E & Hpre & Hv & ->). left.
      by apply (check_options_error _ _ pre v post).
  - intros v. unfold enum_message. apply contains_app.
Qed.

(** C10: the empty text is the single piece [""]; when the empty
    string is not an allowed option the call raises [ArgumentTypeError]
    with a message naming [''], and so does not return the empty list. *)
Theorem comma_separated_enum_list_empty options :
  "" ∉ options ->
  Py.split "," None "" = [""] /\
  comma_separated_enum_list options ""
  = Raise (ArgumentTypeError
             ("invalid value '' (allowed values: " +:+ Py.repr_list options +:+ ")")) /\
  comma_separated_enum_list options "" <> Ok [].
Proof.
  intros Hno.
  assert (comma_separated_enum_list options ""
          = Raise (ArgumentTypeError
                     ("invalid value '' (allowed values: "
                      +:+ Py.repr_list options +:+ ")"))) as H.
  { unfold comma_separated_enum_list. simpl. by rewrite bool_decide_eq_false_2. }
  split_and!; [done | done | by rewrite H].
Qed.

Lemma comma_separated_enum_list_empty_witness :
  Py.split "," None "" = [""] /\
  comma_separated_enum_list ["a"; "b"] ""
  = Raise (ArgumentTypeError
             ("invalid value '' (allowed values: " +:+ Py.repr_list ["a"; "b"] +:+ ")")) /\
  comma_separated_enum_list ["a"; "b"] "" <> Ok [].
Proof.
  apply (comma_separated_enum_list_empty ["a"; "b"]).
  intros H. apply elem_of_cons in H as [H|H]; [discriminate H |].
  apply list_elem_of_singleton in H. discriminate H.
Defined.

End ValidatorTheorems.

(** * Further properties *)

(** ** What [is_error_stack] accepts *)

Section ErrorStackShape.

Import ProfilingErrorStack.
Implicit Types (stack source_stacks error_stack : StackToSampleCount).

Lemma matches_dot_star_inv s :
  Re.matches (Re.Star Re.Dot) s -> Py.has_char Py.newline s = false.
Proof.
  intros H. remember (Re.Star Re.Dot) as r eqn:Er.
  induction H as [| | | | | | |r0 s1 s2 H1 _ H2 IH2]; try discriminate; [done |].
  injection Er as ->. inversion H1 as [| |c Hc| | | | |]; subst.
  rewrite has_char_app, IH2, orb_false_r by done. simpl.
  rewrite orb_false_r. by apply Ascii.eqb_neq.
Qed.

Lemma matches_dot_plus_inv s :
  Re.matches (Re.Plus Re.Dot) s -> s <> "" /\ Py.has_char Py.newline s = false.
Proof.
  intros (s1 & s2 & -> & H1 & H2%matches_dot_star_inv)%matches_cat_inv.
  inversion H1 as [| |c Hc| | | | |]; subst.
  rewrite append_cons, append_nil_l. split; [done |]. simpl.
  rewrite H2, orb_false_r. by apply Ascii.eqb_neq.
Qed.

(** The texts the pattern matches are the keys the constructor builds
    from newline-free parts. *)
Lemma pattern_matches_iff p :
  Re.matches PROFILING_ERROR_STACK_PATTERN p <->
  exists comm what reason,
    p = error_key what reason comm /\ what <> "" /\ reason <> "" /\
    Py.has_char Py.newline comm = false /\
    Py.has_char Py.newline what = false /\
    Py.has_char Py.newline reason = false.
Proof.
  unfold PROFILING_ERROR_STACK_PATTERN, error_key. split.
  - intros (comm & t1 & -> & Hc%matches_dot_star_inv & H)%matches_cat_inv.
    apply matches_cat_inv in H as (l1 & t2 & -> & ->%matches_lit_inv & H).
    apply matches_cat_inv in H as (what & t3 & -> & [Hw Hnw]%matches_dot_plus_inv & H).
    apply matches_cat_inv in H as (l2 & t4 & -> & ->%matches_lit_inv & H).
    apply matches_cat_inv in H
      as (reason & l3 & -> & [Hr Hnr]%matches_dot_plus_inv & ->%matches_lit_inv).
    by exists comm, what, reason.
  - intros (comm & what & reason & -> & Hw & Hr & Hnc & Hnw & Hnr).
    apply Re.m_cat; [by apply matches_dot_star |].
    apply Re.m_cat; [apply matches_lit |].
    apply Re.m_cat; [by apply matches_dot_plus |].
    apply Re.m_cat; [apply matches_lit |].
    apply Re.m_cat; [by apply matches_dot_plus | apply matches_lit].
Qed.

Lemma is_error_stack_intro key count comm what reason rest :
  key = error_key what reason comm +:+ rest ->
  what <> "" -> reason <> "" ->
  Py.has_char Py.newline comm = false ->
  Py.has_char Py.newline what = false ->
  Py.has_char Py.newline reason = false ->
  is_error_stack [(key, count)] = true.
Proof.
  intros -> Hw Hr Hnc Hnw Hnr. unfold is_error_stack. simpl.
  apply match_spec. exists (error_key what reason comm), rest.
  split; [done |]. apply pattern_matches_iff. by exists comm, what, reason.
Qed.

(** X4: [is_error_stack] holds exactly for a container of one entry,
    of any count, whose key starts with
    [comm;[Profiling what: reason]] for some [what] and [reason] that
    are not empty, with no newline in [comm], [what] and [reason];
    what follows in the key is free. *)
Theorem is_error_stack_iff stack :
  is_error_stack stack = true <->
  exists key count comm what reason rest,
    stack = [(key, count)] /\
    key = error_key what reason comm +:+ rest /\
    what <> "" /\ reason <> "" /\
    Py.has_char Py.newline comm = false /\
    Py.has_char Py.newline what = false /\
    Py.has_char Py.newline reason = false.
Proof.
  split.
  - intros (key & count & -> & _ & Hm)%is_error_stack_inv.
    apply match_spec in Hm as (p & rest & -> & Hp).
    apply pattern_matches_iff in Hp
      as (comm & what & reason & -> & Hw & Hr & Hnc & Hnw & Hnr).
    by exists (error_key what reason comm +:+ rest), count, comm, what, reason, rest.
  - intros (key & count & comm & what & reason & rest & -> & Hk & H).
    destruct H as (Hw & Hr & Hnc & Hnw & Hnr).
    by apply (is_error_stack_intro key count comm what reason rest).
Qed.

End ErrorStackShape.

(** ** Outcomes and shape of the annotation *)

Section AttachFacts.

Import ProfilingErrorStack.
Implicit Types (source_stacks error_stack dest : StackToSampleCount).
Implicit Types (frame key comm stack error_frame : string).

Lemma keys_have_stack_or_not (frames : list string) :
  Forall has_stack frames \/
  Exists (fun frame => Py.has_char ";" frame = false) frames.
Proof.
  induction frames as [|frame frames [IH|IH]].
  - left. constructor.
  - destruct (Py.has_char ";" frame) eqn:E.
    + left. by constructor.
    + right. by left.
  - right. by right.
Qed.

Lemma has_stack_not_both (frames : list string) :
  Forall has_stack frames ->
  Exists (fun frame => Py.has_char ";" frame = false) frames -> False.
Proof.
  intros Hall (frame & Hin & Hno)%Exists_exists.
  rewrite Forall_forall in Hall. specialize (Hall frame Hin).
  unfold has_stack in Hall. congruence.
Qed.

(** The call reads the error stack only for the part of its first key
    after the first [;]. *)
Lemma attach_error_to_stacks_loop source_stacks error_stack comm error_frame :
  Dict.next_iter error_stack = Ok (comm +:+ String ";" error_frame) ->
  Py.has_char ";" comm = false ->
  attach_error_to_stacks source_stacks error_stack
  = for_items (attach_step error_frame) [] source_stacks.
Proof.
  intros Hkey Hcomm. unfold attach_error_to_stacks. rewrite Hkey. simpl.
  by rewrite split_once_cut.
Qed.

Lemma attach_error_to_stacks_renames source_stacks error_stack comm error_frame :
  Dict.next_iter error_stack = Ok (comm +:+ String ";" error_frame) ->
  Py.has_char ";" comm = false ->
  Dict.wf source_stacks ->
  Forall has_stack (Dict.keys source_stacks) ->
  attach_error_to_stacks source_stacks error_stack
  = Ok (prod_map (annotate_key error_frame) id <$> source_stacks).
Proof.
  intros Hkey Hcomm Hwf Hkeys.
  rewrite (attach_error_to_stacks_loop _ _ comm error_frame) by done.
  rewrite for_items_appends; [done | done |]. simpl.
  apply NoDup_fmap_2_strong; [|done].
  intros k1 k2 H1 H2. rewrite Forall_forall in Hkeys.
  apply annotate_key_inj; by apply Hkeys.
Qed.

Lemma annotate_key_has_stack error_frame frame :
  has_stack frame -> has_stack (annotate_key error_frame frame).
Proof.
  intros (comm & stack & _ & -> & Hcomm)%split_once_present.
  rewrite annotate_key_cut by done. unfold has_stack, annotated.
  by rewrite has_char_app, has_char_app, orb_true_r.
Qed.

Lemma renamed_wf error_frame source_stacks :
  Dict.wf source_stacks ->
  Forall has_stack (Dict.keys source_stacks) ->
  Dict.wf (prod_map (annotate_key error_frame) id <$> source_stacks) /\
  Forall has_stack
    (Dict.keys (prod_map (annotate_key error_frame) id <$> source_stacks)).
Proof.
  intros Hwf Hkeys. unfold Dict.wf. rewrite keys_rename. split.
  - apply NoDup_fmap_2_strong; [|done].
    intros k1 k2 H1 H2. rewrite Forall_forall in Hkeys.
    apply annotate_key_inj; by apply Hkeys.
  - apply Forall_fmap. eapply Forall_impl; [done |].
    intros frame. apply annotate_key_has_stack.
Qed.

(** A call that returns had an error stack with a [;] in its first key
    and a [;] in every source key. *)
Lemma attach_error_to_stacks_ok_inv source_stacks error_stack dest :
  attach_error_to_stacks source_stacks error_stack = Ok dest ->
  exists key, Dict.next_iter error_stack = Ok key /\ has_stack key /\
    Forall has_stack (Dict.keys source_stacks).
Proof.
  destruct error_stack as [|[key n] rest]; [done |].
  destruct (Py.has_char ";" key) eqn:Hkey.
  - apply split_once_present in Hkey as Hcut.
    destruct Hcut as (comm & error_frame & _ & -> & Hcomm).
    rewrite (attach_error_to_stacks_loop _ _ comm error_frame) by done.
    destruct (keys_have_stack_or_not (Dict.keys source_stacks)) as [Hall|Hex].
    + intros _. by eexists.
    + by rewrite (for_items_raises error_frame [] source_stacks Hex).
  - unfold attach_error_to_stacks. simpl. by rewrite (split_absent _ _ _ Hkey).
Qed.

(** X5: the call raises [StopIteration] exactly for an empty error
    stack, and [ValueError] exactly when the error stack is not empty and
    its first key or some source key holds no [;]; it raises nothing
    else, and returns exactly in the remaining case. *)
Theorem attach_error_to_stacks_outcome source_stacks error_stack :
  (attach_error_to_stacks source_stacks error_stack = Raise StopIteration <->
   error_stack = []) /\
  (attach_error_to_stacks source_stacks error_stack = Raise ValueError <->
   exists key, Dict.next_iter error_stack = Ok key /\
     (Py.has_char ";" key = false \/
      Exists (fun frame => Py.has_char ";" frame = false) (Dict.keys source_stacks))) /\
  (forall e, attach_error_to_stacks source_stacks error_stack = Raise e ->
             e = StopIteration \/ e = ValueError) /\
  ((exists dest, attach_error_to_stacks source_stacks error_stack = Ok dest) <->
   exists key, Dict.next_iter error_stack = Ok key /\ has_stack key /\
     Forall has_stack (Dict.keys source_stacks)).
Proof.
  destruct error_stack as [|[key n] rest].
  { split_and!; try done.
    - split; [done |]. by intros (? & [=] & _).
    - intros e [= <-]. by left.
    - split; [by intros [? [=]] | by intros (? & [=] & _)]. }
  destruct (Py.has_char ";" key) eqn:Hkey.
  - apply split_once_present in Hkey as Hcut.
    destruct Hcut as (comm & error_frame & _ & -> & Hcomm).
    rewrite (attach_error_to_stacks_loop _ _ comm error_frame) by done.
    destruct (keys_have_stack_or_not (Dict.keys source_stacks)) as [Hall|Hex].
    + destruct (for_items_total error_frame [] source_stacks Hall) as [dest ->].
      split_and!; try done.
      * split; [done |]. intros (? & [= <-] & [?|Hex]); [congruence |].
        destruct (has_stack_not_both _ Hall Hex).
      * split; [|by exists dest]. intros _. by eexists.
    + rewrite (for_items_raises error_frame [] source_stacks Hex).
      split_and!; try done.
      * split; [|done]. intros _. eexists. split; [done | by right].
      * intros e [= <-]. by right.
      * split; [by intros [? [=]] |]. intros (? & _ & _ & Hall).
        destruct (has_stack_not_both _ Hall Hex).
  - unfold attach_error_to_stacks. simpl. rewrite (split_absent _ _ _ Hkey). simpl.
    split_and!; try done.
    + split; [|done]. intros _. exists key. split; [done | by left].
    + intros e [= <-]. by right.
    + split; [by intros [? [=]] |]. intros (? & [= <-] & Hk & _).
      unfold has_stack in Hk. congruence.
Qed.

(** X6: when the keys of [source_stacks] are pairwise distinct and the
    call returns, the error stack's first key is [c;error_frame] with no
    [;] in [c], and the result lists the source entries in order, each
    with its count and with its key [comm;stack] (no [;] in [comm])
    turned into [comm;error_frame;stack]: cut at its first [;], a result
    key gives back the command name, followed by the error frame and the
    stack. *)
Theorem attach_error_to_stacks_inv source_stacks error_stack dest :
  Dict.wf source_stacks ->
  attach_error_to_stacks source_stacks error_stack = Ok dest ->
  exists c error_frame,
    Dict.next_iter error_stack = Ok (c +:+ String ";" error_frame) /\
    Py.has_char ";" c = false /\
    Forall2 (fun source_item dest_item =>
               dest_item.2 = source_item.2 /\
               exists comm stack,
                 source_item.1 = comm +:+ String ";" stack /\
                 Py.has_char ";" comm = false /\
                 dest_item.1 = comm +:+ ";" +:+ error_frame +:+ ";" +:+ stack /\
                 Py.split ";" (Some 1) dest_item.1
                 = [comm; error_frame +:+ ";" +:+ stack])
            source_stacks dest.
Proof.
  intros Hwf Hok.
  destruct (attach_error_to_stacks_ok_inv _ _ _ Hok) as (key & Hkey & Hhas & Hall).
  apply split_once_present in Hhas as (c & error_frame & _ & -> & Hc).
  exists c, error_frame. split_and!; [done | done |].
  rewrite (attach_error_to_stacks_renames _ _ c error_frame) in Hok by done.
  injection Hok as <-. clear Hwf Hkey.
  induction source_stacks as [|[frame count] src IH]; [constructor |].
  change (Dict.keys ((frame, count) :: src)) with (frame :: Dict.keys src) in Hall.
  apply Forall_cons in Hall as [Hframe Hall].
  rewrite fmap_cons. constructor; [|by apply IH].
  simpl. split; [done |].
  apply split_once_present in Hframe as (comm & stack & _ & -> & Hcomm).
  exists comm, stack. rewrite annotate_key_cut by done.
  split_and!; [done | done | done |].
  exact (split_once_cut ";" comm (error_frame +:+ ";" +:+ stack) Hcomm).
Qed.

Lemma attach_error_to_stacks_inv_witness :
  exists c error_frame,
    Dict.next_iter sample_error_stack = Ok (c +:+ String ";" error_frame) /\
    Py.has_char ";" c = false /\
    Forall2 (fun source_item dest_item =>
               dest_item.2 = source_item.2 /\
               exists comm stack,
                 source_item.1 = comm +:+ String ";" stack /\
                 Py.has_char ";" comm = false /\
                 dest_item.1 = comm +:+ ";" +:+ error_frame +:+ ";" +:+ stack /\
                 Py.split ";" (Some 1) dest_item.1
                 = [comm; error_frame +:+ ";" +:+ stack])
            sample_stacks
            [("python;[Profiling cpu: permission denied];main;foo", 5%Z);
             ("python;[Profiling cpu: permission denied];main;bar", 3%Z)].
Proof.
  apply (attach_error_to_stacks_inv sample_stacks sample_error_stack).
  - unfold Dict.wf. simpl. apply NoDup_cons. split; [|apply NoDup_singleton].
    intros H%list_elem_of_singleton. discriminate H.
  - vm_compute. reflexivity.
Defined.

Lemma renamed_entries error_frame source_stacks :
  Forall has_stack (Dict.keys source_stacks) ->
  Forall2 (annotated_entry error_frame) source_stacks
          (prod_map (annotate_key error_frame) id <$> source_stacks).
Proof.
  induction source_stacks as [|[frame count] src IH]; intros Hall; [constructor |].
  change (Dict.keys ((frame, count) :: src)) with (frame :: Dict.keys src) in Hall.
  apply Forall_cons in Hall as [Hframe Hall].
  rewrite fmap_cons. constructor; [|by apply IH].
  split; [done |]. simpl.
  apply split_once_present in Hframe as (comm & stack & _ & -> & Hcomm).
  exists comm, stack. by rewrite annotate_key_cut.
Qed.

(** Two renamings in a row put the later error frame first. *)
Lemma renamed_twice_entries error_frame1 error_frame2 source_stacks :
  Forall has_stack (Dict.keys source_stacks) ->
  Forall2 (annotated_entry (error_frame2 +:+ ";" +:+ error_frame1)) source_stacks
          (prod_map (annotate_key error_frame2) id
             <$> (prod_map (annotate_key error_frame1) id <$> source_stacks)).
Proof.
  induction source_stacks as [|[frame count] src IH]; intros Hall; [constructor |].
  change (Dict.keys ((frame, count) :: src)) with (frame :: Dict.keys src) in Hall.
  apply Forall_cons in Hall as [Hframe Hall].
  rewrite !fmap_cons. constructor; [|by apply IH].
  split; [done |]. simpl.
  apply split_once_present in Hframe as (comm & stack & _ & -> & Hcomm).
  exists comm, stack. split_and!; [done | done |].
  rewrite (annotate_key_cut error_frame1) by done. unfold annotated.
  change (comm +:+ ";" +:+ error_frame1 +:+ ";" +:+ stack)
    with (comm +:+ String ";" (error_frame1 +:+ ";" +:+ stack)).
  rewrite annotate_key_cut by done.
  unfold annotated. by rewrite !append_assoc.
Qed.

(** X7: the result of an annotation is again a valid source (distinct
    keys, each holding a [;]), so a second annotation succeeds; after
    both, an entry [comm;stack] has become
    [comm;error_frame2;error_frame1;stack], with its count. *)
Theorem attach_error_to_stacks_twice source_stacks error_stack1 error_stack2
    c1 error_frame1 c2 error_frame2 :
  Dict.wf source_stacks ->
  Forall has_stack (Dict.keys source_stacks) ->
  Dict.next_iter error_stack1 = Ok (c1 +:+ String ";" error_frame1) ->
  Py.has_char ";" c1 = false ->
  Dict.next_iter error_stack2 = Ok (c2 +:+ String ";" error_frame2) ->
  Py.has_char ";" c2 = false ->
  exists dest1 dest2,
    attach_error_to_stacks source_stacks error_stack1 = Ok dest1 /\
    Dict.wf dest1 /\
    Forall has_stack (Dict.keys dest1) /\
    attach_error_to_stacks dest1 error_stack2 = Ok dest2 /\
    Forall2 (annotated_entry (error_frame2 +:+ ";" +:+ error_frame1))
            source_stacks dest2.
Proof.
  intros Hwf Hall Hk1 Hc1 Hk2 Hc2.
  destruct (renamed_wf error_frame1 source_stacks Hwf Hall) as [Hwf1 Hall1].
  eexists _, _. split_and!.
  - by apply (attach_error_to_stacks_renames _ _ c1 error_frame1).
  - done.
  - done.
  - by apply (attach_error_to_stacks_renames _ _ c2 error_frame2).
  - by apply renamed_twice_entries.
Qed.

Lemma attach_error_to_stacks_twice_witness :
  exists dest1 dest2,
    attach_error_to_stacks sample_stacks sample_error_stack = Ok dest1 /\
    Dict.wf dest1 /\
    Forall has_stack (Dict.keys dest1) /\
    attach_error_to_stacks dest1 [("java;[Profiling perf: timeout]", 1%Z)]
    = Ok dest2 /\
    Forall2 (annotated_entry
               ("[Profiling perf: timeout]" +:+ ";"
                +:+ "[Profiling cpu: permission denied]"))
            sample_stacks dest2.
Proof.
  apply (attach_error_to_stacks_twice sample_stacks sample_error_stack
           [("java;[Profiling perf: timeout]", 1%Z)]
           "python" "[Profiling cpu: permission denied]"
           "java" "[Profiling perf: timeout]").
  - unfold Dict.wf. simpl. apply NoDup_cons. split; [|apply NoDup_singleton].
    intros H%list_elem_of_singleton. discriminate H.
  - repeat constructor.
  - reflexivity.
  - reflexivity.
  - reflexivity.
  - reflexivity.
Defined.

End AttachFacts.

(** ** The constructor and the annotation together *)

Section ConstructorFacts.

Import ProfilingErrorStack.
Implicit Types (source_stacks error_stack dest : StackToSampleCount).
Implicit Types (what reason comm stack : string).

Ltac string_normal :=
  repeat (rewrite append_assoc || rewrite append_cons || rewrite append_nil_l).

Lemma init_value what reason comm :
  what <> "" -> reason <> "" ->
  Py.has_char Py.newline what = false ->
  Py.has_char Py.newline reason = false ->
  Py.has_char Py.newline comm = false ->
  __init__ what reason comm = Ok [(error_key what reason comm, 1%Z)].
Proof.
  intros Hw Hr Hnw Hnr Hnc. unfold __init__.
  change (Dict.update [] [(error_key what reason comm, 1%Z)])
    with [(error_key what reason comm, 1%Z)].
  rewrite (is_error_stack_intro _ _ comm what reason ""); try done.
  by rewrite append_nil_r.
Qed.

Lemma first_cut_cases sep (a1 b1 a b : string) :
  Py.has_char sep a1 = false ->
  a1 +:+ String sep b1 = a +:+ String sep b ->
  (a = a1 /\ b1 = b) \/
  exists a', a = a1 +:+ String sep a' /\ b1 = a' +:+ String sep b.
Proof.
  revert a. induction a1 as [|c a1 IH]; intros a Hno E.
  - rewrite append_nil_l in E. destruct a as [|x a].
    + rewrite append_nil_l in E. injection E as ->. by left.
    + rewrite append_cons in E. injection E as <- ->. right. by exists a.
  - simpl in Hno. apply orb_false_elim in Hno as [Hc Hno].
    apply Ascii.eqb_neq in Hc. rewrite append_cons in E.
    destruct a as [|x a].
    + rewrite append_nil_l in E. by injection E as -> _.
    + rewrite append_cons in E. injection E as <- E.
      destruct (IH a Hno E) as [[-> ->]|(a' & -> & ->)].
      * by left.
      * right. by exists a'.
Qed.

(** X8: an error stack built by the constructor from newline-free text
    with no [;] in [comm] annotates every entry [c;stack] of a valid
    source as [c;[Profiling what: reason];stack], keeping order and
    counts; the error stack's own [comm] does not show in the result. *)
Theorem attach_constructed_error source_stacks what reason comm :
  what <> "" -> reason <> "" ->
  Py.has_char Py.newline what = false ->
  Py.has_char Py.newline reason = false ->
  Py.has_char Py.newline comm = false ->
  Py.has_char ";" comm = false ->
  Dict.wf source_stacks ->
  Forall has_stack (Dict.keys source_stacks) ->
  exists error_stack dest,
    __init__ what reason comm = Ok error_stack /\
    attach_error_to_stacks source_stacks error_stack = Ok dest /\
    Forall2 (annotated_entry ("[Profiling " +:+ what +:+ ": " +:+ reason +:+ "]"))
            source_stacks dest.
Proof.
  intros Hw Hr Hnw Hnr Hnc Hsep Hwf Hall.
  eexists _, _. split_and!.
  - by apply init_value.
  - by apply (attach_error_to_stacks_renames _ _ comm
                ("[Profiling " +:+ what +:+ ": " +:+ reason +:+ "]")).
  - by apply renamed_entries.
Qed.

Lemma attach_constructed_error_witness :
  exists error_stack dest,
    __init__ "cpu" "permission denied" "python" = Ok error_stack /\
    attach_error_to_stacks sample_stacks error_stack = Ok dest /\
    Forall2 (annotated_entry
               ("[Profiling " +:+ "cpu" +:+ ": " +:+ "permission denied" +:+ "]"))
            sample_stacks dest.
Proof.
  apply (attach_constructed_error sample_stacks "cpu" "permission denied" "python");
    try discriminate; try reflexivity.
  - unfold Dict.wf. simpl. apply NoDup_cons. split; [|apply NoDup_singleton].
    intros H%list_elem_of_singleton. discriminate H.
  - repeat constructor.
Defined.

(** X9: when the constructor's [comm] is [c1;c2] (no [;] in [c1]), what
    follows its first [;] goes with the error frame: every entry
    [c;stack] of a valid source becomes
    [c;c2;[Profiling what: reason];stack]. *)
Theorem attach_constructed_error_comm_tail source_stacks what reason c1 c2 :
  what <> "" -> reason <> "" ->
  Py.has_char Py.newline what = false ->
  Py.has_char Py.newline reason = false ->
  Py.has_char Py.newline (c1 +:+ String ";" c2) = false ->
  Py.has_char ";" c1 = false ->
  Dict.wf source_stacks ->
  Forall has_stack (Dict.keys source_stacks) ->
  exists error_stack dest,
    __init__ what reason (c1 +:+ String ";" c2) = Ok error_stack /\
    attach_error_to_stacks source_stacks error_stack = Ok dest /\
    Forall2 (annotated_entry
               (c2 +:+ ";[Profiling " +:+ what +:+ ": " +:+ reason +:+ "]"))
            source_stacks dest.
Proof.
  intros Hw Hr Hnw Hnr Hnc Hsep Hwf Hall.
  eexists _, _. split_and!.
  - by apply init_value.
  - apply (attach_error_to_stacks_renames _ _ c1
             (c2 +:+ ";[Profiling " +:+ what +:+ ": " +:+ reason +:+ "]"));
      try done.
    simpl. unfold error_key. by string_normal.
  - by apply renamed_entries.
Qed.

Lemma attach_constructed_error_comm_tail_witness :
  exists error_stack dest,
    __init__ "cpu" "permission denied" ("java" +:+ String ";" "worker")
    = Ok error_stack /\
    attach_error_to_stacks sample_stacks error_stack = Ok dest /\
    Forall2 (annotated_entry
               ("worker" +:+ ";[Profiling " +:+ "cpu" +:+ ": "
                +:+ "permission denied" +:+ "]"))
            sample_stacks dest.
Proof.
  apply (attach_constructed_error_comm_tail sample_stacks
           "cpu" "permission denied" "java" "worker");
    try discriminate; try reflexivity.
  - unfold Dict.wf. simpl. apply NoDup_cons. split; [|apply NoDup_singleton].
    intros H%list_elem_of_singleton. discriminate H.
  - repeat constructor.
Defined.

(** X10: a source of one stack whose command name holds no newline,
    once annotated with an error stack, itself satisfies
    [is_error_stack]: the predicate does not tell an annotated
    one-stack profile from an error stack. *)
Theorem annotated_single_stack_is_error_stack error_stack comm stack count :
  is_error_stack error_stack = true ->
  Py.has_char ";" comm = false ->
  Py.has_char Py.newline comm = false ->
  exists dest,
    attach_error_to_stacks [(comm +:+ String ";" stack, count)] error_stack = Ok dest /\
    Dict.len dest = 1 /\
    is_error_stack dest = true.
Proof.
  intros (key & n & -> & Hkey & Hm)%is_error_stack_inv Hsep Hnl.
  apply match_spec in Hm as (p & rest & -> & Hp).
  apply pattern_matches_iff in Hp
    as (c & what & reason & -> & Hw & Hr & Hnc & Hnw & Hnr).
  apply split_once_present in Hkey as (c1 & error_frame & _ & Hcut & Hc1).
  exists [(comm +:+ ";" +:+ error_frame +:+ ";" +:+ stack, count)].
  split_and!; [| done |].
  - rewrite (attach_error_to_stacks_renames _ _ c1 error_frame).
    + simpl. by rewrite annotate_key_cut.
    + simpl. by rewrite Hcut.
    + done.
    + unfold Dict.wf. simpl. apply NoDup_singleton.
    + repeat constructor. unfold has_stack. simpl.
      by rewrite has_char_app, has_char_cons_same, orb_true_r.
  - unfold error_key in Hcut.
    assert (c +:+ ";[Profiling " +:+ what +:+ ": " +:+ reason +:+ "]" +:+ rest
            = c1 +:+ String ";" error_frame) as Hcut'.
    { rewrite <- Hcut. by rewrite !append_assoc. }
    symmetry in Hcut'.
    apply first_cut_cases in Hcut' as [[-> ->]|(c' & -> & ->)]; [| |done].
    + apply (is_error_stack_intro _ _ comm what reason (rest +:+ ";" +:+ stack));
        try done.
      unfold error_key. by string_normal.
    + rewrite has_char_app in Hnc. apply orb_false_elim in Hnc as [_ Hnc'].
      simpl in Hnc'.
      apply (is_error_stack_intro _ _ (comm +:+ ";" +:+ c') what reason
               (rest +:+ ";" +:+ stack)); try done.
      * unfold error_key. by string_normal.
      * by rewrite has_char_app, Hnl.
Qed.

Lemma annotated_single_stack_is_error_stack_witness :
  exists dest,
    attach_error_to_stacks [("python" +:+ String ";" "main;foo", 5%Z)]
      sample_error_stack = Ok dest /\
    Dict.len dest = 1 /\
    is_error_stack dest = true.
Proof.
  apply (annotated_single_stack_is_error_stack sample_error_stack
           "python" "main;foo" 5%Z); reflexivity.
Defined.

End ConstructorFacts.

(** ** A raising call on the heap *)

Section HeapExceptionFacts.

Implicit Types (h : gmap nat StackToSampleCount) (l : Heap.loc).
Implicit Types (src es : StackToSampleCount).

Lemma for_items_raises_only error_frame d src e :
  ProfilingErrorStack.for_items (ProfilingErrorStack.attach_step error_frame) d src
  = Raise e ->
  e = ValueError.
Proof.
  destruct (keys_have_stack_or_not (Dict.keys src)) as [Hall|Hex].
  - destruct (for_items_total error_frame d src Hall) as [dest ->]. done.
  - rewrite (for_items_raises error_frame d src Hex). by intros [= <-].
Qed.

Lemma attach_error_to_stacks_raises_only src es e :
  ProfilingErrorStack.attach_error_to_stacks src es = Raise e ->
  e = StopIteration \/ e = ValueError.
Proof.
  unfold ProfilingErrorStack.attach_error_to_stacks.
  destruct es as [|[key n] rest]; simpl; [intros [= <-]; by left |].
  destruct (Py.unpack2 (Py.split ";" (Some 1) key)) as [[c error_frame]|e'] eqn:E;
    simpl.
  - intros ->%for_items_raises_only. by right.
  - intros [= <-]. right. unfold Py.unpack2 in E.
    destruct (Py.split ";" (Some 1) key) as [|? [|? [|? ?]]]; by simplify_eq.
Qed.

(** X11: when the call on the heap raises, it raises what the call on
    the values does, which is [StopIteration] or [ValueError] and never
    the iterator's [RuntimeError], also when both arguments are one
    object; and every object that was on the heap holds what it held. *)
Theorem attach_error_to_stacks_raise_safe h source error src es e h' :
  h !! source = Some src -> h !! error = Some es ->
  Heap.attach_error_to_stacks source error h = (Raise e, h') ->
  ProfilingErrorStack.attach_error_to_stacks src es = Raise e /\
  (e = StopIteration \/ e = ValueError) /\
  (forall l d, h !! l = Some d -> h' !! l = Some d).
Proof.
  intros Hsrc Hes Hrun.
  destruct (attach_error_to_stacks_run h source error src es Hsrc Hes)
    as (h'' & Hrun' & Hframe & _).
  rewrite Hrun in Hrun'.
  destruct (ProfilingErrorStack.attach_error_to_stacks src es) as [d|e'] eqn:E;
    [discriminate |].
  injection Hrun' as -> ->.
  split_and!; [done | by apply attach_error_to_stacks_raises_only in E |].
  intros l d Hl. rewrite Hframe; [done |].
  intros ->. assert (h !! fresh (dom h) = None) by (apply not_elem_of_dom, is_fresh).
  congruence.
Qed.

Lemma attach_error_to_stacks_raise_safe_witness :
  ProfilingErrorStack.attach_error_to_stacks sample_malformed_stacks sample_error_stack
  = Raise ValueError /\
  (ValueError = StopIteration \/ ValueError = ValueError) /\
  (forall l d,
     sample_malformed_heap !! l = Some d ->
     (<[2 := [("python;[Profiling cpu: permission denied];main;foo", 5%Z)]]>
        sample_malformed_heap) !! l = Some d).
Proof.
  apply (attach_error_to_stacks_raise_safe sample_malformed_heap 0 1
           sample_malformed_stacks sample_error_stack).
  - reflexivity.
  - reflexivity.
  - vm_compute. reflexivity.
Defined.

End HeapExceptionFacts.

(** ** Decimal text: [int] after [repr] *)

Section DecimalFacts.

Import Decimal.
Implicit Types (d : uint) (s : string) (c : ascii).

Lemma digits_cons_digit acc after_digit c s v :
  Py.digit_of c = Some v ->
  Py.digits acc after_digit (String c s) = Py.digits (10 * acc + v) true s.
Proof. intros H. simpl. by rewrite H. Qed.

Lemma digits_uint_acc d : forall acc,
  Py.digits (Z.pos acc) true (NilEmpty.string_of_uint d)
  = Some (Z.pos (Pos.of_uint_acc d acc)).
Proof.
  induction d as [|d IH|d IH|d IH|d IH|d IH|d IH|d IH|d IH|d IH|d IH];
    intros acc; cbn [NilEmpty.string_of_uint Pos.of_uint_acc]; [done |..];
    (erewrite digits_cons_digit by reflexivity);
    rewrite <- IH; f_equal;
    try match goal with
        | |- context [Z.of_nat ?n] =>
            let v := eval vm_compute in (Z.of_nat n) in
            change (Z.of_nat n) with v
        end;
    lia.
Qed.

Lemma digits_uint d after_digit :
  d <> Nil \/ after_digit = true ->
  Py.digits 0 after_digit (NilEmpty.string_of_uint d)
  = Some (Z.of_N (Pos.of_uint d)).
Proof.
  revert after_digit.
  induction d as [|d IH|d IH|d IH|d IH|d IH|d IH|d IH|d IH|d IH|d IH];
    intros b Hd; cbn [NilEmpty.string_of_uint Pos.of_uint].
  - destruct Hd as [?| ->]; done.
  - erewrite digits_cons_digit by reflexivity. apply IH. by right.
  - erewrite digits_cons_digit by reflexivity. apply (digits_uint_acc d 1).
  - erewrite digits_cons_digit by reflexivity. apply (digits_uint_acc d 2).
  - erewrite digits_cons_digit by reflexivity. apply (digits_uint_acc d 3).
  - erewrite digits_cons_digit by reflexivity. apply (digits_uint_acc d 4).
  - erewrite digits_cons_digit by reflexivity. apply (digits_uint_acc d 5).
  - erewrite digits_cons_digit by reflexivity. apply (digits_uint_acc d 6).
  - erewrite digits_cons_digit by reflexivity. apply (digits_uint_acc d 7).
  - erewrite digits_cons_digit by reflexivity. apply (digits_uint_acc d 8).
  - erewrite digits_cons_digit by reflexivity. apply (digits_uint_acc d 9).
Qed.

Lemma rstrip_cons c s :
  Py.is_space c = false -> Py.rstrip s = s -> Py.rstrip (String c s) = String c s.
Proof. intros Hc Hs. simpl. rewrite Hs. destruct s; by rewrite ?Hc. Qed.

Lemma rstrip_uint d :
  Py.rstrip (NilEmpty.string_of_uint d) = NilEmpty.string_of_uint d.
Proof.
  induction d; cbn [NilEmpty.string_of_uint]; [done |..];
    by apply rstrip_cons.
Qed.

Lemma lstrip_uint d :
  Py.lstrip (NilEmpty.string_of_uint d) = NilEmpty.string_of_uint d.
Proof. by destruct d. Qed.

Lemma int_uint d :
  d <> Nil ->
  Py.int (NilEmpty.string_of_uint d) = Some (Z.of_N (Pos.of_uint d)).
Proof.
  intros Hd. unfold Py.int. rewrite lstrip_uint, rstrip_uint.
  rewrite <- (digits_uint d false) by (by left).
  by destruct d.
Qed.

Lemma int_neg_uint d :
  d <> Nil ->
  Py.int (String "-" (NilEmpty.string_of_uint d))
  = Some (- Z.of_N (Pos.of_uint d))%Z.
Proof.
  intros Hd. unfold Py.int.
  change (Py.lstrip (String "-" (NilEmpty.string_of_uint d)))
    with (String "-" (NilEmpty.string_of_uint d)).
  rewrite rstrip_cons by (done || apply rstrip_uint).
  by rewrite (digits_uint d false) by (by left).
Qed.

(** [int] reads back what [repr] prints. *)
Lemma int_repr_int (n : Z) : Py.int (Py.repr_int n) = Some n.
Proof.
  unfold Py.repr_int. destruct n as [|p|p]; [done |..]; simpl.
  - pose proof (Unsigned.to_uint_nonnil p) as Hd.
    unfold NilZero.string_of_uint.
    destruct (Pos.to_uint p) eqn:E; [done |..];
      rewrite <- E in *; rewrite int_uint by done;
      by rewrite Unsigned.of_to.
  - pose proof (Unsigned.to_uint_nonnil p) as Hd.
    unfold NilZero.string_of_uint.
    destruct (Pos.to_uint p) eqn:E; [done |..];
      rewrite <- E in *; rewrite int_neg_uint by done;
      by rewrite Unsigned.of_to.
Qed.

Lemma uint_has_no_char c d :
  Py.digit_of c = None -> Py.has_char c (NilEmpty.string_of_uint d) = false.
Proof.
  intros Hc.
  induction d; cbn [NilEmpty.string_of_uint Py.has_char]; [done |..];
    rewrite IHd, orb_false_r; apply Ascii.eqb_neq; by intros <-.
Qed.

Lemma repr_int_no_comma (n : Z) : Py.has_char "," (Py.repr_int n) = false.
Proof.
  unfold Py.repr_int. destruct n as [|p|p]; [done |..]; simpl.
  - unfold NilZero.string_of_uint.
    destruct (Pos.to_uint p) eqn:E; [done |..];
      rewrite <- E; by apply uint_has_no_char.
  - unfold NilZero.string_of_uint.
    destruct (Pos.to_uint p) eqn:E; [done |..];
      rewrite <- E; by apply uint_has_no_char.
Qed.

End DecimalFacts.

(** ** More on [split] *)

Section SplitFacts.

Implicit Types (s a b : string) (sep : ascii) (pieces : list string).

(** Splitting a text that holds a separator: the pieces before it,
    then the pieces after it. *)
Lemma split_app sep a b :
  Py.split sep None (a +:+ String sep b)
  = Py.split sep None a ++ Py.split sep None b.
Proof.
  induction a as [|c a IH].
  - rewrite append_nil_l. simpl. by rewrite Ascii.eqb_refl.
  - rewrite append_cons. simpl. rewrite andb_true_r.
    destruct (Ascii.eqb c sep); [by rewrite IH |].
    rewrite IH. pose proof (split_nonempty sep None a).
    by destruct (Py.split sep None a).
Qed.

Lemma split_join sep pieces :
  pieces <> [] ->
  Forall (fun piece => Py.has_char sep piece = false) pieces ->
  Py.split sep None (Py.join (String sep "") pieces) = pieces.
Proof.
  induction pieces as [|x [|y pieces] IH]; [done | |].
  - intros _ [Hx _]%Forall_cons. simpl. by apply split_absent.
  - intros _ [Hx Hrest]%Forall_cons.
    change (Py.join (String sep "") (x :: y :: pieces))
      with (x +:+ String sep (Py.join (String sep "") (y :: pieces))).
    rewrite split_app, IH by done. by rewrite split_absent.
Qed.

Lemma length_split sep s :
  length (Py.split sep None s) = S (str_count sep s).
Proof.
  induction s as [|c s IH]; simpl; [done |].
  rewrite andb_true_r. destruct (Ascii.eqb c sep); simpl; [by rewrite IH |].
  pose proof (split_nonempty sep None s).
  destruct (Py.split sep None s); [done | by rewrite <- IH].
Qed.

End SplitFacts.

(** ** More on the validators *)

Section ValidatorMoreFacts.

Implicit Types (value_str a b : string) (n value : Z) (ints : list Z).
Implicit Types (options values : list string).

Lemma integers_list_ok value_str ints :
  integers_list value_str = Ok ints <->
  Forall2 (fun segment value => Py.int segment = Some value)
          (Py.split "," None value_str) ints.
Proof.
  rewrite <- mapM_int_ok. unfold integers_list.
  destruct (mapM Py.int_or_raise _) as [vs|[]]; split; intros H; by simplify_eq.
Qed.

Lemma integers_list_not_ok value_str :
  Exists (fun segment => Py.int segment = None) (Py.split "," None value_str) ->
  integers_list value_str = Raise (ArgumentTypeError integers_list_message).
Proof.
  intros Hex. unfold integers_list.
  assert (mapM Py.int_or_raise (Py.split "," None value_str) = Raise ValueError)
    as -> by (by apply mapM_int_error).
  done.
Qed.

Lemma comma_separated_enum_list_ok options (value : string) values :
  comma_separated_enum_list options value = Ok values <->
  values = Py.split "," None value /\ Forall (.∈ options) values.
Proof.
  unfold comma_separated_enum_list. rewrite result_bind_ok. split.
  - intros ([] & Hcheck%check_options_ok & [= <-]). done.
  - intros [-> Hall]. exists tt. split; [by apply check_options_ok | done].
Qed.

(** X12: the decimal text of an integer within the interpreter's digit
    limit, as [repr] prints it, parses back to the integer:
    [positive_integer] accepts it exactly for a positive integer,
    [nonnegative_integer] exactly for one that is not negative, and
    [integer_range min_range max_range] exactly for one in the range; so
    a range that is not empty accepts its lower bound, and a range
    rejects its upper bound (with [ArgumentTypeError], when the lower
    bound is within the digit limit too). *)
Theorem validators_on_decimal_text n :
  within_digit_limit n ->
  (positive_integer (Py.repr_int n) = Ok n <-> (0 < n)%Z) /\
  (nonnegative_integer (Py.repr_int n) = Ok n <-> (0 <= n)%Z) /\
  (forall min_range max_range,
     integer_range min_range max_range (Py.repr_int n) = Ok n <->
     (min_range <= n < max_range)%Z) /\
  (forall max_range, (n < max_range)%Z ->
     integer_range n max_range (Py.repr_int n) = Ok n) /\
  (forall min_range, within_digit_limit min_range ->
     exists msg,
       integer_range min_range n (Py.repr_int n) = Raise (ArgumentTypeError msg)).
Proof.
  intros _.
  assert (Py.int_or_raise (Py.repr_int n) = Ok n) as Hint
    by (by apply int_or_raise_ok, int_repr_int).
  unfold positive_integer, nonnegative_integer, integer_range.
  rewrite Hint. simpl. split_and!.
  - destruct (Z.leb_spec n 0); split; (done || lia).
  - destruct (Z.ltb_spec n 0); split; (done || lia).
  - intros lo hi. destruct (Z.ltb_spec n lo), (Z.leb_spec hi n); simpl;
      split; (done || lia).
  - intros hi Hhi. destruct (Z.ltb_spec n n), (Z.leb_spec hi n); simpl;
      (done || lia).
  - intros lo _. destruct (Z.ltb_spec n lo), (Z.leb_spec n n); simpl;
      (by eexists) || lia.
Qed.

Lemma validators_on_decimal_text_witness :
  (positive_integer (Py.repr_int 7) = Ok 7%Z <-> (0 < 7)%Z) /\
  (nonnegative_integer (Py.repr_int 7) = Ok 7%Z <-> (0 <= 7)%Z) /\
  (forall min_range max_range,
     integer_range min_range max_range (Py.repr_int 7) = Ok 7%Z <->
     (min_range <= 7 < max_range)%Z) /\
  (forall max_range, (7 < max_range)%Z ->
     integer_range 7 max_range (Py.repr_int 7) = Ok 7%Z) /\
  (forall min_range, within_digit_limit min_range ->
     exists msg,
       integer_range min_range 7 (Py.repr_int 7) = Raise (ArgumentTypeError msg)).
Proof.
  apply (validators_on_decimal_text 7%Z).
  unfold within_digit_limit, max_str_digits. vm_compute. reflexivity.
Defined.

(** X13: an integer the range validator accepts is accepted by every
    wider range, and a range whose upper bound is not above its lower
    bound accepts no text at all.  A text accepted by [positive_integer]
    is accepted with the same value by [nonnegative_integer], and one
    accepted by a range that starts above zero by [positive_integer]. *)
Theorem validators_inclusions value_str value (min_range max_range : Z) :
  (forall lo hi, (lo <= min_range)%Z -> (max_range <= hi)%Z ->
     integer_range min_range max_range value_str = Ok value ->
     integer_range lo hi value_str = Ok value) /\
  ((max_range <= min_range)%Z ->
     integer_range min_range max_range value_str <> Ok value) /\
  (positive_integer value_str = Ok value ->
     nonnegative_integer value_str = Ok value) /\
  ((0 < min_range)%Z ->
     integer_range min_range max_range value_str = Ok value ->
     positive_integer value_str = Ok value).
Proof.
  unfold positive_integer, nonnegative_integer, integer_range.
  destruct (Py.int_or_raise value_str) as [v|e]; simpl; [|by split_and!].
  split_and!.
  - intros lo hi Hlo Hhi.
    destruct (Z.ltb_spec v min_range), (Z.leb_spec max_range v); simpl; try done.
    intros [= <-].
    destruct (Z.ltb_spec v lo), (Z.leb_spec hi v); simpl; (done || lia).
  - intros Hempty.
    destruct (Z.ltb_spec v min_range), (Z.leb_spec max_range v); simpl;
      (done || lia).
  - destruct (Z.leb_spec v 0); [done |]. intros [= <-].
    destruct (Z.ltb_spec v 0); (done || lia).
  - intros Hpos.
    destruct (Z.ltb_spec v min_range), (Z.leb_spec max_range v); simpl; try done.
    intros [= <-]. destruct (Z.leb_spec v 0); (done || lia).
Qed.

(** X14: a text that [int] does not accept makes the three scalar
    validators raise [ValueError], and they raise it for no other text:
    the failure of the parse is not turned into [ArgumentTypeError]. *)
Theorem validators_value_error value_str :
  (positive_integer value_str = Raise ValueError <-> Py.int value_str = None) /\
  (nonnegative_integer value_str = Raise ValueError <-> Py.int value_str = None) /\
  (forall min_range max_range,
     integer_range min_range max_range value_str = Raise ValueError <->
     Py.int value_str = None) /\
  positive_integer "" = Raise ValueError /\
  positive_integer "1.5" = Raise ValueError /\
  nonnegative_integer "ten" = Raise ValueError /\
  integer_range 0 10 "0x5" = Raise ValueError.
Proof.
  split_and!; try (evaluate_unless_about value_str value_str).
  - unfold positive_integer, Py.int_or_raise.
    destruct (Py.int value_str) as [v|]; simpl; [|done].
    destruct (v <=? 0)%Z; split; done.
  - unfold nonnegative_integer, Py.int_or_raise.
    destruct (Py.int value_str) as [v|]; simpl; [|done].
    destruct (v <? 0)%Z; split; done.
  - intros lo hi. unfold integer_range, Py.int_or_raise.
    destruct (Py.int value_str) as [v|]; simpl; [|done].
    destruct (_ || _); split; done.
Qed.

End ValidatorMoreFacts.

(** ** The list validators *)

Section ListValidatorFacts.

Implicit Types (value_str a b : string) (ints : list Z).
Implicit Types (options values : list string).

Lemma append_comma a b : a +:+ "," +:+ b = a +:+ String "," b.
Proof. reflexivity. Qed.

(** X15: a list that [integers_list] returns has one integer per
    segment, that is one more than the text has commas, so it is never
    empty; and a text with an empty segment (the empty text, a comma at
    either end, two commas in a row) is rejected. *)
Theorem integers_list_segments value_str :
  (forall ints, integers_list value_str = Ok ints ->
     length ints = S (str_count "," value_str) /\ ints <> []) /\
  integers_list "" = Raise (ArgumentTypeError integers_list_message) /\
  integers_list (value_str +:+ ",")
  = Raise (ArgumentTypeError integers_list_message) /\
  integers_list ("," +:+ value_str)
  = Raise (ArgumentTypeError integers_list_message) /\
  (forall b, integers_list (value_str +:+ ",," +:+ b)
             = Raise (ArgumentTypeError integers_list_message)).
Proof.
  split_and!.
  - intros ints Hok%integers_list_ok.
    apply Forall2_length in Hok. rewrite length_split in Hok.
    split; [done |]. intros ->. discriminate Hok.
  - done.
  - apply integers_list_not_ok.
    change (value_str +:+ ",") with (value_str +:+ String "," "").
    rewrite split_app. apply Exists_app. right. by left.
  - apply integers_list_not_ok.
    change ("," +:+ value_str) with ("" +:+ String "," value_str).
    rewrite split_app. apply Exists_app. left. by left.
  - intros b. apply integers_list_not_ok.
    change (value_str +:+ ",," +:+ b)
      with (value_str +:+ String "," ("" +:+ String "," b)).
    rewrite !split_app. apply Exists_app. right. apply Exists_app. left. by left.
Qed.

(** X16: a non-empty list of integers within the interpreter's digit
    limit, printed with [repr] and joined with commas, is read back by
    [integers_list] as the same list. *)
Theorem integers_list_of_joined ints :
  ints <> [] ->
  Forall within_digit_limit ints ->
  integers_list (Py.join "," (Py.repr_int <$> ints)) = Ok ints.
Proof.
  intros Hne _. apply integers_list_ok.
  rewrite split_join.
  - apply Forall2_fmap_l, Forall_Forall2_diag, Forall_forall.
    intros n _. apply int_repr_int.
  - by destruct ints.
  - apply Forall_fmap, Forall_forall. intros n _. apply repr_int_no_comma.
Qed.

Lemma integers_list_of_joined_witness :
  integers_list (Py.join "," (Py.repr_int <$> [13; 0; -452; 2388]%Z))
  = Ok [13; 0; -452; 2388]%Z.
Proof.
  apply (integers_list_of_joined [13; 0; -452; 2388]%Z).
  - discriminate.
  - repeat constructor; unfold within_digit_limit, max_str_digits;
      vm_compute; reflexivity.
Defined.

(** X17: two texts joined by a comma are accepted by [integers_list]
    exactly when both are, and the result is the first list followed by
    the second. *)
Theorem integers_list_joined a b ints :
  integers_list (a +:+ "," +:+ b) = Ok ints <->
  exists ints_a ints_b,
    ints = ints_a ++ ints_b /\
    integers_list a = Ok ints_a /\ integers_list b = Ok ints_b.
Proof.
  rewrite append_comma, integers_list_ok, split_app. split.
  - intros (la & lb & Ha & Hb & ->)%Forall2_app_inv_l.
    exists la, lb. by rewrite !integers_list_ok.
  - intros (la & lb & -> & Ha%integers_list_ok & Hb%integers_list_ok).
    by apply Forall2_app.
Qed.

(** X18: a non-empty list of allowed options none of which holds a
    comma, joined with commas, is accepted by
    [comma_separated_enum_list] and returned as it is. *)
Theorem comma_separated_enum_list_of_joined options values :
  values <> [] ->
  Forall (.∈ options) values ->
  Forall (fun v => Py.has_char "," v = false) values ->
  comma_separated_enum_list options (Py.join "," values) = Ok values.
Proof.
  intros Hne Hall Hcomma. apply comma_separated_enum_list_ok.
  by rewrite split_join.
Qed.

Lemma comma_separated_enum_list_of_joined_witness :
  comma_separated_enum_list ["a"; "b"] (Py.join "," ["b"; "a"; "b"])
  = Ok ["b"; "a"; "b"].
Proof.
  apply (comma_separated_enum_list_of_joined ["a"; "b"] ["b"; "a"; "b"]).
  - discriminate.
  - repeat constructor.
  - repeat constructor.
Defined.

(** X19: a list that [comma_separated_enum_list] returns is never
    empty, has one more value than the text has commas, gives the text
    back when joined with commas, and holds no value with a comma in it:
    an option that holds a comma is never returned. *)
Theorem comma_separated_enum_list_result options (value : string) values :
  comma_separated_enum_list options value = Ok values ->
  values <> [] /\
  length values = S (str_count "," value) /\
  Py.join "," values = value /\
  Forall (fun v => v ∈ options /\ Py.has_char "," v = false) values.
Proof.
  intros [-> Hall]%comma_separated_enum_list_ok. split_and!.
  - apply split_nonempty.
  - apply length_split.
  - apply join_split.
  - apply Forall_and. split; [done | apply split_pieces].
Qed.

Lemma comma_separated_enum_list_result_witness :
  ["a"; "b"; "a"] <> [] /\
  length ["a"; "b"; "a"] = S (str_count "," "a,b,a") /\
  Py.join "," ["a"; "b"; "a"] = "a,b,a" /\
  Forall (fun v => v ∈ ["a"; "b"] /\ Py.has_char "," v = false) ["a"; "b"; "a"].
Proof.
  apply (comma_separated_enum_list_result ["a"; "b"] "a,b,a" ["a"; "b"; "a"]).
  vm_compute. reflexivity.
Defined.

(** X20: with no allowed option every text is rejected, the message
    naming the piece before the first comma. *)
Theorem comma_separated_enum_list_no_options (value : string) :
  exists v rest,
    Py.split "," None value = v :: rest /\
    comma_separated_enum_list [] value
    = Raise (ArgumentTypeError
               ("invalid value " +:+ Py.repr_str v +:+ " (allowed values: [])")).
Proof.
  pose proof (split_nonempty "," None value) as Hne.
  destruct (Py.split "," None value) as [|v rest] eqn:E; [done |].
  exists v, rest. split; [done |].
  unfold comma_separated_enum_list. rewrite E. simpl. done.
Qed.

(** X21: two texts joined by a comma are accepted by
    [comma_separated_enum_list] exactly when both are, and the result is
    the first list followed by the second. *)
Theorem comma_separated_enum_list_joined options a b values :
  comma_separated_enum_list options (a +:+ "," +:+ b) = Ok values <->
  exists values_a values_b,
    values = values_a ++ values_b /\
    comma_separated_enum_list options a = Ok values_a /\
    comma_separated_enum_list options b = Ok values_b.
Proof.
  rewrite append_comma, comma_separated_enum_list_ok, split_app. split.
  - intros [-> [Ha Hb]%Forall_app].
    eexists _, _. by rewrite !comma_separated_enum_list_ok.
  - intros (va & vb & -> & [-> Ha]%comma_separated_enum_list_ok
                          & [-> Hb]%comma_separated_enum_list_ok).
    split; [done | by apply Forall_app].
Qed.

End ListValidatorFacts.
